(** * jenkinsjob: the trigger-and-wait state machine of [index.js]

    A shallow embedding of [src/index.js]: the module-level counters and
    timer, [triggerJenkinsJob], [getJobStatus], [waitJenkinsJob] and [main],
    followed by the properties of the job-lifecycle state machine.

    Conventions of the embedding.
    - The HTTP client, the configuration source and the output sink are the
      environment.  Everything the program tells the environment is recorded,
      in order, in a log of [event]s; everything the environment tells the
      program is an [input].
    - [async] code is cut at its [await]s on the network: a [step] runs the
      program from the arrival of one answer to the next request it waits
      for, the [sleep] in between included.  The deadline timer is one more
      input, which may arrive between any two steps.
    - An exception that leaves a callback of the HTTP client is caught by
      nothing: the process is killed where it stands.
    - [core.info] lines are not recorded. *)

From Stdlib Require Import String Ascii List ZArith Bool Lia DecimalString.
Import ListNotations.
Open Scope string_scope.
Open Scope Z_scope.

(** ** JavaScript strings *)

Module Js.

(** [s.endsWith(suffix)]: some tail of [s] is [suffix]. *)
Fixpoint endsWith (s suffix : string) : bool :=
  if String.eqb s suffix then true
  else match s with
       | EmptyString => false
       | String _ s' => endsWith s' suffix
       end.

(** Truthiness of a string: every string but the empty one. *)
Definition truthy (s : string) : bool := negb (String.eqb s "").

(** Truthiness of a value that may be [undefined]. *)
Definition truthy_opt (o : option string) : bool :=
  match o with
  | Some s => truthy s
  | None => false
  end.

(** A value inside a template literal: [undefined] prints as such. *)
Definition show (o : option string) : string :=
  match o with
  | Some s => s
  | None => "undefined"
  end.

(** [v == "literal"] for a value that is a string, [null] or [undefined]. *)
Definition eq_literal (v : option string) (literal : string) : bool :=
  match v with
  | Some s => String.eqb s literal
  | None => false
  end.

(** A number inside a template literal. *)
Definition show_number (n : Z) : string :=
  NilZero.string_of_int (Z.to_int n).

End Js.

(** ** Constants and error classes (lines 5-26) *)

Definition FAILURE_THRESHOLD : Z := 10.
Definition SUCCESS_THRESHOLD : Z := 3.

(** [BadGatewayError] and [JenkinsAPIError] are the two classes of the
    source; [Error] is the built-in one ([JsError] here), [TypeError] is
    what the engine raises on a property read of [null] or [undefined] and
    [SyntaxError] what [JSON.parse] raises. *)
Inductive error : Type :=
| BadGatewayError (message : string)
| JenkinsAPIError (message : string)
| JsError (message : string)
| TypeError (message : string)
| SyntaxError (message : string).

Definition message (e : error) : string :=
  match e with
  | BadGatewayError m | JenkinsAPIError m | JsError m
  | TypeError m | SyntaxError m => m
  end.

(** [error instanceof BadGatewayError] *)
Definition instanceof_BadGatewayError (e : error) : bool :=
  match e with
  | BadGatewayError _ => true
  | _ => false
  end.

(** ** Promises

    A promise settles once: [resolve] and [reject] on a settled promise do
    nothing.  [E] is the type of the rejection reasons. *)
Inductive promise (A E : Type) : Type :=
| Pending
| Resolved (value : A)
| Rejected (reason : E).
Arguments Pending {A E}.
Arguments Resolved {A E} value.
Arguments Rejected {A E} reason.

Definition resolve {A E} (v : A) (p : promise A E) : promise A E :=
  match p with
  | Pending => Resolved v
  | _ => p
  end.

Definition reject {A E} (e : E) (p : promise A E) : promise A E :=
  match p with
  | Pending => Rejected e
  | _ => p
  end.

(** ** Status documents

    The fields of a parsed status document that the program reads.  A queue
    document has [cancelled], [executable] and [why]; a build document has
    [result] and [fullDisplayName]; a field that is absent is [None]
    ([false] for [cancelled]). *)
Record executable : Type := { url : option string }.

Record document : Type := {
  cancelled : bool;
  executable_ : option executable;
  why : option string;
  result : option string;
  fullDisplayName : option string
}.

(** [queueData.executable && queueData.executable.url], when truthy. *)
Definition executable_url (d : document) : option string :=
  match executable_ d with
  | Some e => if Js.truthy_opt (url e) then url e else None
  | None => None
  end.

Definition empty_document : document :=
  {| cancelled := false; executable_ := None; why := None;
     result := None; fullDisplayName := None |}.

(** A parsed JSON value, as far as the program tells values apart.  [Null]
    is [null]: it is falsy and reading a property of it throws.  [Falsy] is
    [false], [0] or the empty string: falsy too, but a property read gives
    [undefined].  [Object d] is an object, seen through the fields the
    program reads; any other truthy value (a number, [true], a string that
    is not empty, an array) has none of these fields and reads as
    [Object empty_document]. *)
Inductive value : Type :=
| Null
| Falsy
| Object (d : document).

(** [!v] is false. *)
Definition truthy_value (v : value) : bool :=
  match v with
  | Object _ => true
  | _ => false
  end.

(** The fields of [v], when reading a property of [v] does not throw. *)
Definition properties (v : value) : option document :=
  match v with
  | Null => None
  | Falsy => Some empty_document
  | Object d => Some d
  end.

(** The body of a response as [JSON.parse] takes it: a text that it refuses
    (an empty or absent body, HTML, ...), with the message of the
    [SyntaxError] it throws, or a text that it parses, with the value. *)
Inductive raw_body : Type :=
| Unparsable (message : string)
| Json (v : value).

Definition JSON_parse (b : raw_body) : value + error :=
  match b with
  | Unparsable m => inr (SyntaxError m)
  | Json v => inl v
  end.

(** A response to a status request: the status code and the body. *)
Record response : Type := {
  statusCode : Z;
  body : raw_body
}.

(** What the HTTP client hands to the callback of [getJobStatus]: an error
    and no response ([err] set, [res] undefined), or a response. *)
Inductive answer : Type :=
| NoResponse (err : string)
| Response (res : response).

(** ** [getJobStatus] (lines 79-124) *)

(** Line 80. *)
Definition normalize (statusUrl : string) : string :=
  if negb (Js.endsWith statusUrl "/") then statusUrl ++ "/" else statusUrl.

(** Line 84: the URL of the request. *)
Definition request_url (statusUrl : string) : string :=
  normalize statusUrl ++ "api/json".

(** Lines 97-121: the [switch] of the callback, run on the counter
    [failureCount] and a pending promise; the third component is what the
    [switch] throws.  In [case 200] [JSON.parse] runs before [resolve]: when
    it throws, the promise is left pending.  [case 502] has no [break] and
    the threshold test has no [return]: the later [reject]s are executed and
    find the promise settled. *)
Definition getJobStatus_switch (failureCount : Z) (res : response)
  : Z * promise value error * option error :=
  let unknown :=
    JenkinsAPIError
      ("Unknown API error code received: " ++ Js.show_number (statusCode res)) in
  if statusCode res =? 200 then
    match JSON_parse (body res) with
    | inl v => (failureCount, resolve v Pending, None)
    | inr e => (failureCount, Pending, Some e)
    end
  else if statusCode res =? 502 then
    let p1 :=
      if failureCount >? FAILURE_THRESHOLD
      then reject (JenkinsAPIError "Failure Threshold reached, exiting script.....") Pending
      else Pending in
    let failureCount' := failureCount + 1 in
    let p2 :=
      reject
        (BadGatewayError
           ("Wrong http response from host - " ++ Js.show_number (statusCode res)))
        p1 in
    (failureCount', reject unknown p2, None)
  else
    (failureCount, reject unknown Pending, None).

(** ** The environment *)

(** What the program does to the outside, in the order it does it. *)
Inductive event : Type :=
| EPost (target : string)                 (* request({method: "POST", ...}) *)
| EGet (target : string)                  (* request({method: "GET", ...}) *)
| ESetOutput (name value : string)        (* core.setOutput *)
| ESetFailed (text : string)              (* core.setFailed *)
| EError (text : string)                  (* core.error *)
| ESleep (seconds : Z)                    (* await sleep(seconds) *)
| EClearTimeout.                          (* clearTimeout(timer) *)

(** The named inputs read with [core.getInput]. *)
Record config : Type := {
  input_url : string;
  input_job_name : string;
  input_parameter : string;
  input_wait : string;
  (** the message of the [SyntaxError] that [JSON.parse] raises on
      [input_parameter], [None] when it parses *)
  parameter_syntax_error : option string;
  (** the message of the [TypeError] that [params.toString()] raises on the
      parsed parameter (it is [null], or an object whose [toString] is not a
      function), [None] when it prints *)
  parameter_toString_error : option string
}.

(** What the HTTP client hands to the callback of [triggerJenkinsJob]: an
    error ([err] as a string and as [JSON.stringify] prints it), or a
    response with its [location] header. *)
Inductive trigger_response : Type :=
| TriggerError (err_text err_json : string)
| TriggerResponse (location : option string).

(** What happens to the program while it is suspended. *)
Inductive input : Type :=
| Triggered (t : trigger_response)   (* the POST is answered *)
| Status (res : response)            (* a GET is answered *)
| NoStatus (err : string)            (* a GET ends in an error *)
| Timeout.                           (* the deadline timer expires *)

(** ** Program state *)

(** How the process ends: the promise of [main] is resolved ([Normal]) or
    rejected ([Uncaught]), or an exception thrown inside a callback of the
    HTTP client, which nothing catches, kills the process ([Killed]). *)
Inductive completion : Type :=
| Normal
| Uncaught (e : error)
| Killed (e : error).

(** Where the program is suspended, or that it has ended.  [AwaitStatus] is
    the [await] of a [getJobStatus] inside [waitJenkinsJob], with the two
    variables of that function that are live there. *)
Inductive phase : Type :=
| AwaitTrigger
| AwaitStatus (queueItemUrl : string) (buildUrl : option string)
| Exited (c : completion).

(** The module-level variables ([timer] is [true] while the timeout is
    pending), the log and the suspension point. *)
Record state : Type := {
  failureCount : Z;
  successCount : Z;
  jenkinsBuildUrl : option string;
  timer : bool;
  log : list event;
  pc : phase
}.

Definition set_failureCount (n : Z) (s : state) : state :=
  {| failureCount := n; successCount := successCount s;
     jenkinsBuildUrl := jenkinsBuildUrl s; timer := timer s;
     log := log s; pc := pc s |}.

Definition set_successCount (n : Z) (s : state) : state :=
  {| failureCount := failureCount s; successCount := n;
     jenkinsBuildUrl := jenkinsBuildUrl s; timer := timer s;
     log := log s; pc := pc s |}.

Definition set_jenkinsBuildUrl (u : option string) (s : state) : state :=
  {| failureCount := failureCount s; successCount := successCount s;
     jenkinsBuildUrl := u; timer := timer s;
     log := log s; pc := pc s |}.

Definition set_timer (b : bool) (s : state) : state :=
  {| failureCount := failureCount s; successCount := successCount s;
     jenkinsBuildUrl := jenkinsBuildUrl s; timer := b;
     log := log s; pc := pc s |}.

Definition emit (es : list event) (s : state) : state :=
  {| failureCount := failureCount s; successCount := successCount s;
     jenkinsBuildUrl := jenkinsBuildUrl s; timer := timer s;
     log := log s ++ es; pc := pc s |}.

Definition goto (p : phase) (s : state) : state :=
  {| failureCount := failureCount s; successCount := successCount s;
     jenkinsBuildUrl := jenkinsBuildUrl s; timer := timer s;
     log := log s; pc := p |}.

Definition clearTimeout (s : state) : state :=
  set_timer false (emit [EClearTimeout] s).

(** Lines 10-12 and 33: the module is loaded. *)
Definition loaded : state :=
  {| failureCount := 0; successCount := 0; jenkinsBuildUrl := None;
     timer := true; log := []; pc := AwaitTrigger |}.

(** ** The program *)

Section Program.

Variable cfg : config.

(** Line 128. *)
Definition sleepInterval : Z := 10.

(** An exception leaves a callback of the HTTP client: the process is
    gone, and its pending timer with it. *)
Definition die (e : error) (s : state) : state :=
  goto (Exited (Killed e)) (set_timer false s).

(** *** [main], lines 229-234: [catch] and [finally] *)

Definition main_finally (c : completion) (s : state) : state :=
  goto (Exited c) (clearTimeout s).

(** [err] is what was thrown: [None] is [undefined], the reason of a bare
    [reject()].  Reading [err.message] of [undefined] raises a [TypeError]
    inside the [catch] block, which leaves [main] through [finally]. *)
Definition main_catch (err : option error) (s : state) : state :=
  match err with
  | Some e =>
      main_finally Normal (emit [ESetFailed (message e); EError (message e)] s)
  | None =>
      main_finally
        (Uncaught
           (TypeError "Cannot read properties of undefined (reading 'message')"))
        s
  end.

(** *** [triggerJenkinsJob], lines 45-77 *)

(** Lines 46-56: the request is sent. *)
Definition triggerJenkinsJob (s : state) : state :=
  emit [EPost (input_url cfg ++ "/job/" ++ input_job_name cfg
                 ++ "/buildWithParameters")] s.

(** Lines 56-75: the callback, on a pending promise. *)
Definition triggerJenkinsJob_callback (t : trigger_response) (s : state)
  : state * promise string unit :=
  match t with
  | TriggerError err_text err_json =>
      (clearTimeout (emit [ESetFailed err_text; EError err_json] s),
       reject tt Pending)
  | TriggerResponse location =>
      if negb (Js.truthy_opt location) then
        let errorMessage := "Failed to find location header in response!" in
        (clearTimeout (emit [ESetFailed errorMessage; EError errorMessage] s),
         reject tt Pending)
      else
        (s, resolve (Js.show location) Pending)
  end.

(** *** [getJobStatus], lines 79-88: the request is sent *)

Definition getJobStatus (statusUrl : string) (s : state) : state :=
  emit [EGet (request_url statusUrl)] s.

(** Lines 90-122: the callback.  On an error the timer is cleared and the
    promise rejected, but there is no [return]: line 96 reads
    [res.statusCode] of [undefined], which throws. *)
Definition getJobStatus_callback (a : answer) (s : state)
  : state * promise value error * option error :=
  match a with
  | NoResponse err =>
      (clearTimeout s, reject (JsError err) Pending,
       Some (TypeError
               "Cannot read properties of undefined (reading 'statusCode')"))
  | Response res =>
      let '(failureCount', p, thrown) :=
        getJobStatus_switch (failureCount s) res in
      (set_failureCount failureCount' s, p, thrown)
  end.

(** *** [waitJenkinsJob], lines 127-207 *)

(** The head of the loop body: line 133 chooses the request, the queue
    item (line 134) or the build (line 162), and the function is suspended
    on it. *)
Definition poll (queueItemUrl : string) (buildUrl : option string) (s : state)
  : state :=
  let statusUrl :=
    if negb (Js.truthy_opt buildUrl) then queueItemUrl else Js.show buildUrl in
  goto (AwaitStatus queueItemUrl buildUrl) (getJobStatus statusUrl s).

(** Lines 127-131: [waitJenkinsJob] is called; [buildUrl] is undefined and
    the loop is entered. *)
Definition waitJenkinsJob (queueItemUrl : string) (s : state) : state :=
  poll queueItemUrl None s.

(** [await sleep(sleepInterval); continue] and the fall out of the loop
    body after line 193. *)
Definition sleep_continue (queueItemUrl : string) (buildUrl : option string)
    (s : state) : state :=
  poll queueItemUrl buildUrl (emit [ESleep sleepInterval] s).

(** Lines 136-158, with [queueData] resolved.  The poll of the queue is
    outside the [try] of line 161: what is thrown here, and a rejection of
    the poll itself, leave [waitJenkinsJob] for the [catch] of [main].
    Reading [queueData.cancelled] throws when [queueData] is [null]. *)
Definition queue_block (queueItemUrl : string) (buildUrl : option string)
    (queueData : value) (s : state) : state :=
  match properties queueData with
  | None =>
      main_catch
        (Some (TypeError "Cannot read properties of null (reading 'cancelled')")) s
  | Some d =>
      if cancelled d then
        main_catch
          (Some (JsError ("Job '" ++ input_job_name cfg ++ "' was cancelled."))) s
      else
        let '(buildUrl, s) :=
          match executable_url d with
          | Some u =>
              let buildUrl := Some u in
              let s :=
                set_jenkinsBuildUrl
                  (match jenkinsBuildUrl s with
                   | None => buildUrl
                   | Some _ => buildUrl
                   end) s in
              (buildUrl,
               if Js.truthy_opt (jenkinsBuildUrl s)
               then emit [ESetOutput "jenkinsBuildUrl"
                                     (Js.show (jenkinsBuildUrl s))] s
               else s)
          | None => (buildUrl, s)
          end in
        if negb (Js.truthy_opt buildUrl)
        then sleep_continue queueItemUrl buildUrl s   (* lines 152-157 *)
        else poll queueItemUrl buildUrl s             (* on to line 162 *)
  end.

(** Lines 194-205. *)
Definition try_catch (queueItemUrl : string) (buildUrl : option string)
    (e : error) (s : state) : state :=
  if instanceof_BadGatewayError e then
    sleep_continue queueItemUrl buildUrl s
  else
    main_catch (Some (JsError ("Prod-to-env sync job failed,  " ++ message e))) s.

(** Lines 164-193, with [buildData] resolved; lines 164-168 are for a
    [buildData] that is falsy. *)
Definition try_block (queueItemUrl : string) (buildUrl : option string)
    (buildData : value) (s : state) : state :=
  match buildData with
  | Null | Falsy => sleep_continue queueItemUrl buildUrl s
  | Object d =>
      if Js.eq_literal (result d) "SUCCESS" then
        if successCount s >=? SUCCESS_THRESHOLD then
          (* break: waitJenkinsJob returns, main leaves its try *)
          main_finally Normal s
        else
          sleep_continue queueItemUrl buildUrl
            (set_successCount (successCount s + 1) s)
      else if Js.eq_literal (result d) "FAILURE"
              || Js.eq_literal (result d) "ABORTED"
      then
        try_catch queueItemUrl buildUrl
          (JsError ("Job '" ++ Js.show (fullDisplayName d) ++ "' - "
                      ++ Js.show (jenkinsBuildUrl s) ++ " failed."))
          s
      else
        sleep_continue queueItemUrl buildUrl s
  end.

(** A [getJobStatus] is answered.  If its callback throws, nothing catches
    the exception.  Otherwise the callback has settled the promise and
    [waitJenkinsJob] goes on from the [await], of line 134 or of line 162;
    were the promise left pending, the function would stay suspended. *)
Definition waitJenkinsJob_resume (queueItemUrl : string) (buildUrl : option string)
    (a : answer) (s : state) : state :=
  let '(s, p, thrown) := getJobStatus_callback a s in
  match thrown with
  | Some e => die e s
  | None =>
      if negb (Js.truthy_opt buildUrl) then
        match p with
        | Pending => s
        | Resolved queueData => queue_block queueItemUrl buildUrl queueData s
        | Rejected e => main_catch (Some e) s
        end
      else
        match p with
        | Pending => s
        | Resolved buildData => try_block queueItemUrl buildUrl buildData s
        | Rejected e => try_catch queueItemUrl buildUrl e s
        end
  end.

(** *** [main], lines 209-228 *)

(** Lines 211-219, up to the [await] of the trigger.  Line 215 parses the
    parameter and line 216 prints it; either may throw. *)
Definition main : state :=
  if Js.truthy (input_parameter cfg) then
    match parameter_syntax_error cfg with
    | Some m => main_catch (Some (SyntaxError m)) loaded
    | None =>
        match parameter_toString_error cfg with
        | Some m => main_catch (Some (TypeError m)) loaded
        | None => triggerJenkinsJob loaded
        end
    end
  else triggerJenkinsJob loaded.

(** Lines 219-228: the trigger is answered. *)
Definition main_resume (t : trigger_response) (s : state) : state :=
  match triggerJenkinsJob_callback t s with
  | (s, Resolved queueItemUrl) =>
      if String.eqb (input_wait cfg) "true"
      then waitJenkinsJob queueItemUrl s
      else main_finally Normal s
  | (s, Rejected _) => main_catch None s
  | (s, Pending) => s
  end.

(** Lines 33-36: the callback of the deadline timer.  It runs only while
    the timeout is pending, and touches nothing but the sink. *)
Definition timer_callback (s : state) : state :=
  if timer s
  then set_timer false
         (emit [ESetFailed "Job Timeout"; EError "Exception Error: Timed out"] s)
  else s.

(** One step.  An answer is delivered only to the request that waits for
    it; any other input but the timer leaves the state as it is. *)
Definition step (s : state) (i : input) : state :=
  match i, pc s with
  | Timeout, _ => timer_callback s
  | Triggered t, AwaitTrigger => main_resume t s
  | Status res, AwaitStatus queueItemUrl buildUrl =>
      waitJenkinsJob_resume queueItemUrl buildUrl (Response res) s
  | NoStatus err, AwaitStatus queueItemUrl buildUrl =>
      waitJenkinsJob_resume queueItemUrl buildUrl (NoResponse err) s
  | _, _ => s
  end.

Definition steps (s : state) (ins : list input) : state := fold_left step ins s.

(** The whole run of the process on the inputs [ins]. *)
Definition run (ins : list input) : state := steps main ins.

End Program.

(** ** Observations *)

(** The values given to the output [jenkinsBuildUrl], in order. *)
Fixpoint published (l : list event) : list string :=
  match l with
  | [] => []
  | ESetOutput name value :: l' =>
      if String.eqb name "jenkinsBuildUrl" then value :: published l'
      else published l'
  | _ :: l' => published l'
  end.

(** The messages given to [core.setFailed], in order. *)
Fixpoint failures (l : list event) : list string :=
  match l with
  | [] => []
  | ESetFailed text :: l' => text :: failures l'
  | _ :: l' => failures l'
  end.

(** The requests for a status document, in order. *)
Fixpoint polls (l : list event) : list string :=
  match l with
  | [] => []
  | EGet target :: l' => target :: polls l'
  | _ :: l' => polls l'
  end.

(** The seconds slept, in order. *)
Fixpoint sleeps (l : list event) : list Z :=
  match l with
  | [] => []
  | ESleep n :: l' => n :: sleeps l'
  | _ :: l' => sleeps l'
  end.

(** [core.setFailed] sets the exit code of the process to failure and nothing
    in the program sets it back: the process reports success when no failure
    was reported and [main] has settled normally. *)
Definition succeeded (s : state) : bool :=
  match pc s, failures (log s) with
  | Exited Normal, [] => true
  | _, _ => false
  end.

(** ** Sample documents and answers *)

Definition queued (reason : string) : document :=
  {| cancelled := false; executable_ := None; why := Some reason;
     result := None; fullDisplayName := None |}.

Definition assigned (u : string) : document :=
  {| cancelled := false; executable_ := Some {| url := Some u |}; why := None;
     result := None; fullDisplayName := None |}.

Definition build (r : option string) : document :=
  {| cancelled := false; executable_ := None; why := None;
     result := r; fullDisplayName := Some "job #5" |}.

Definition ok (d : document) : input :=
  Status {| statusCode := 200; body := Json (Object d) |}.

(** A 502 comes with a page that is not JSON; the body of a response that
    is not a 200 is not read. *)
Definition bad_gateway : input :=
  Status {| statusCode := 502; body := Unparsable "Unexpected token < in JSON" |}.

Definition sample : config :=
  {| input_url := "https://ci"; input_job_name := "deploy";
     input_parameter := ""; input_wait := "true";
     parameter_syntax_error := None;
     parameter_toString_error := None |}.

Definition started : list input :=
  [Triggered (TriggerResponse (Some "https://ci/queue/5/"))].

Definition building : list input :=
  started ++ [ok (queued "waiting"); ok (assigned "https://ci/build/5/")].

(** ** Vocabulary of the properties *)

(** While the trigger or the queue is awaited nothing was published and the
    counters are at zero; while a build is awaited its URL is the published
    one; after the end the timer is released, and a failure was reported if
    the promise of [main] was rejected. *)
Definition inv (s : state) : Prop :=
  0 <= failureCount s /\
  0 <= successCount s <= SUCCESS_THRESHOLD /\
  match pc s with
  | AwaitTrigger | AwaitStatus _ None =>
      published (log s) = [] /\ jenkinsBuildUrl s = None /\
      failureCount s = 0 /\ successCount s = 0
  | AwaitStatus _ (Some u) =>
      Js.truthy u = true /\ jenkinsBuildUrl s = Some u /\
      published (log s) = [u]
  | Exited c =>
      timer s = false /\ (length (published (log s)) <= 1)%nat /\
      (forall e, c = Uncaught e -> failures (log s) <> [])
  end.

(** Once a build is awaited, or the process has exited, no step publishes. *)
Definition assigned_or_exited (s : state) : Prop :=
  match pc s with
  | AwaitStatus _ (Some u) => Js.truthy u = true
  | Exited _ => True
  | _ => False
  end.

(** An answer that line 170 classifies as a success. *)
Definition is_success (i : input) : bool :=
  match i with
  | Status res =>
      (statusCode res =? 200) &&
      match body res with
      | Json (Object d) => Js.eq_literal (result d) "SUCCESS"
      | _ => false
      end
  | _ => false
  end.

(** [n] successes in a row somewhere in [ins]. *)
Fixpoint successes_in_a_row (n : nat) (ins : list input) : bool :=
  ((n <=? length ins)%nat && forallb is_success (firstn n ins))
  || match ins with
     | [] => false
     | _ :: ins' => successes_in_a_row n ins'
     end.

(** The claim C5 as it is written: a run succeeds only if its answers have
    [SUCCESS_THRESHOLD] successes in a row. *)
Definition debounced (cfg : config) (ins : list input) : Prop :=
  succeeded (run cfg ins) = true ->
  successes_in_a_row (Z.to_nat SUCCESS_THRESHOLD) ins = true.

(** Successes that alternate with documents of a running build. *)
Definition interrupted_successes : list input :=
  [ok (build (Some "SUCCESS")); ok (build None);
   ok (build (Some "SUCCESS")); ok (build None);
   ok (build (Some "SUCCESS")); ok (build None);
   ok (build (Some "SUCCESS"))].

(** The claim C6 as it is written, for the polling: once the deadline has
    expired no status request is made any more. *)
Definition polling_abandoned (cfg : config) (ins more : list input) : Prop :=
  polls (log (run cfg (ins ++ Timeout :: more)))
  = polls (log (run cfg (ins ++ [Timeout]))).

(** Two states that differ at most in the timer and in what was reported. *)
Definition same_course (s s' : state) : Prop :=
  pc s = pc s' /\
  failureCount s = failureCount s' /\
  successCount s = successCount s' /\
  jenkinsBuildUrl s = jenkinsBuildUrl s' /\
  polls (log s) = polls (log s') /\
  sleeps (log s) = sleeps (log s') /\
  published (log s) = published (log s').

(** A trigger that fails, and what [triggerJenkinsJob] gives to
    [core.setFailed] and to [core.error]. *)
Definition trigger_failed (t : trigger_response) : bool :=
  match t with
  | TriggerError _ _ => true
  | TriggerResponse location => negb (Js.truthy_opt location)
  end.

Definition trigger_message (t : trigger_response) : string :=
  match t with
  | TriggerError err_text _ => err_text
  | TriggerResponse _ => "Failed to find location header in response!"
  end.

Definition trigger_error (t : trigger_response) : string :=
  match t with
  | TriggerError _ err_json => err_json
  | TriggerResponse _ => "Failed to find location header in response!"
  end.

(** The deadline expires. *)
Definition is_timeout (i : input) : bool :=
  match i with
  | Timeout => true
  | _ => false
  end.

(** A configuration that does not ask to wait. *)
Definition no_wait : config :=
  {| input_url := "https://ci"; input_job_name := "deploy";
     input_parameter := ""; input_wait := "false";
     parameter_syntax_error := None;
     parameter_toString_error := None |}.

(** The claim C10 as it is written, for the success: after the inputs
    [pre], when the trigger is answered with a location and [wait] is not
    "true", the process has succeeded. *)
Definition succeeds_when_not_waiting (cfg : config) (pre : list input)
    (location : string) : Prop :=
  pc (run cfg pre) = AwaitTrigger ->
  Js.truthy location = true ->
  input_wait cfg <> "true" ->
  succeeded (run cfg (pre ++ [Triggered (TriggerResponse (Some location))]))
  = true.

(** ** Vocabulary of the further properties *)

(** The trigger requests, in order. *)
Fixpoint posts (l : list event) : list string :=
  match l with
  | [] => []
  | EPost target :: l' => target :: posts l'
  | _ :: l' => posts l'
  end.

(** An answer with status 502. *)
Definition is_bad_gateway (i : input) : bool :=
  match i with
  | Status res => statusCode res =? 502
  | _ => false
  end.

(** How many inputs of a list satisfy a test. *)
Definition count (f : input -> bool) (ins : list input) : Z :=
  Z.of_nat (length (filter f ins)).

(** The process still waits for the answer to a poll. *)
Definition polling (s : state) : Prop :=
  exists q b, pc s = AwaitStatus q b.

(** A queue document that neither cancels nor assigns. *)
Definition still_queued (d : document) : bool :=
  negb (cancelled d) &&
  match executable_url d with
  | Some _ => false
  | None => true
  end.

(** What [n] turns of the waiting loop write to the log. *)
Fixpoint turns (n : nat) (statusUrl : string) : list event :=
  match n with
  | O => []
  | S n' => ESleep sleepInterval :: EGet (request_url statusUrl)
              :: turns n' statusUrl
  end.

(** The output and the variable [jenkinsBuildUrl] go together. *)
Definition output_matches_variable (s : state) : Prop :=
  (published (log s) = [] /\ jenkinsBuildUrl s = None) \/
  (exists u, published (log s) = [u] /\ jenkinsBuildUrl s = Some u /\
             Js.truthy u = true).


(** Queue documents that assign nothing: a wait reason, an [executable]
    without [url], an [executable] whose [url] is empty. *)
Definition stalled_documents : list document :=
  [queued "waiting";
   {| cancelled := false; executable_ := Some {| url := None |};
      why := None; result := None; fullDisplayName := None |};
   {| cancelled := false; executable_ := Some {| url := Some EmptyString |};
      why := None; result := None; fullDisplayName := None |}].

(** A queue document that is cancelled and names a build. *)
Definition cancelled_assigned : document :=
  {| cancelled := true;
     executable_ := Some {| url := Some "https://ci/build/5/" |};
     why := None; result := None; fullDisplayName := None |}.

(** A configuration whose [parameter] is cut short. *)
Definition unparsable : config :=
  {| input_url := "https://ci"; input_job_name := "deploy";
     input_parameter := "{"; input_wait := "true";
     parameter_syntax_error := Some "Unexpected end of JSON input";
     parameter_toString_error := None |}.

(** A build document of an aborted build, without a display name. *)
Definition aborted_build : document :=
  {| cancelled := false; executable_ := None; why := None;
     result := Some "ABORTED"; fullDisplayName := None |}.

(** ** Proof steps shared below *)

Ltac split_ifs :=
  repeat match goal with
         | |- context [if ?b then _ else _] => destruct b eqn:?
         | |- context [match ?x with Some _ => _ | None => _ end] =>
             destruct x eqn:?
         end.

(** The program unfolded by value: the state setters are nested, and
    unfolding them by name alone would copy their argument at every field. *)
Ltac unfold_program :=
  cbv [step timer_callback main_resume waitJenkinsJob_resume
       triggerJenkinsJob triggerJenkinsJob_callback
       waitJenkinsJob getJobStatus getJobStatus_callback die
       properties truthy_value
       queue_block try_block try_catch main_catch main_finally
       sleep_continue poll clearTimeout resolve reject
       emit goto set_timer set_failureCount set_successCount
       set_jenkinsBuildUrl
       failureCount successCount jenkinsBuildUrl timer log pc].

(** * Properties *)

(** ** Strings and the request URL *)

Lemma endsWith_refl (t : string) : Js.endsWith t t = true.
Proof. destruct t; cbn [Js.endsWith]; now rewrite String.eqb_refl. Qed.

Lemma endsWith_append (s t : string) : Js.endsWith (s ++ t) t = true.
Proof.
  induction s as [|c s IH]; cbn [append Js.endsWith].
  - apply endsWith_refl.
  - rewrite IH. now destruct (String.eqb _ _).
Qed.

Lemma normalize_ends (u : string) : Js.endsWith (normalize u) "/" = true.
Proof.
  unfold normalize.
  destruct (Js.endsWith u "/") eqn:E; simpl; [exact E | apply endsWith_append].
Qed.

Lemma normalize_fixed (u : string) :
  Js.endsWith u "/" = true -> normalize u = u.
Proof. intros E. unfold normalize. now rewrite E. Qed.

(** ** Observations of a log that grows *)

Lemma published_app (l l' : list event) :
  published (l ++ l') = (published l ++ published l')%list.
Proof.
  induction l as [|e l IH]; simpl; [reflexivity|].
  destruct e; simpl; try exact IH.
  destruct (String.eqb name "jenkinsBuildUrl"); simpl; now rewrite IH.
Qed.

Lemma failures_app (l l' : list event) :
  failures (l ++ l') = (failures l ++ failures l')%list.
Proof.
  induction l as [|e l IH]; simpl; [reflexivity|].
  destruct e; simpl; now rewrite ?IH.
Qed.

Lemma polls_app (l l' : list event) :
  polls (l ++ l') = (polls l ++ polls l')%list.
Proof.
  induction l as [|e l IH]; simpl; [reflexivity|].
  destruct e; simpl; now rewrite ?IH.
Qed.

Lemma sleeps_app (l l' : list event) :
  sleeps (l ++ l') = (sleeps l ++ sleeps l')%list.
Proof.
  induction l as [|e l IH]; simpl; [reflexivity|].
  destruct e; simpl; now rewrite ?IH.
Qed.

Create Rewrite HintDb obs.
#[local] Hint Rewrite published_app failures_app polls_app sleeps_app
  app_nil_r : obs.
#[local] Hint Rewrite <- app_assoc : obs.

(** ** The callback of [getJobStatus] *)

Lemma getJobStatus_switch_200 (n : Z) (v : value) :
  getJobStatus_switch n {| statusCode := 200; body := Json v |}
  = (n, Resolved v, None).
Proof. reflexivity. Qed.

(** A 200 whose body [JSON.parse] refuses: the [SyntaxError] leaves the
    callback and the promise is left pending. *)
Lemma getJobStatus_switch_unparsable (n : Z) (m : string) :
  getJobStatus_switch n {| statusCode := 200; body := Unparsable m |}
  = (n, Pending, Some (SyntaxError m)).
Proof. reflexivity. Qed.

(** A 502 that finds the counter at most at the threshold: a
    [BadGatewayError], and the counter goes up by one. *)
Lemma getJobStatus_switch_502_transient (n : Z) (b : raw_body) :
  n <= FAILURE_THRESHOLD ->
  getJobStatus_switch n {| statusCode := 502; body := b |}
  = (n + 1, Rejected (BadGatewayError "Wrong http response from host - 502"),
     None).
Proof.
  intros H. unfold getJobStatus_switch; simpl.
  destruct (n >? FAILURE_THRESHOLD) eqn:E; [|reflexivity].
  apply Z.gtb_lt in E. lia.
Qed.

(** A 502 that finds the counter above the threshold: the first [reject]
    wins, and the counter still goes up by one. *)
Lemma getJobStatus_switch_502_escalated (n : Z) (b : raw_body) :
  FAILURE_THRESHOLD < n ->
  getJobStatus_switch n {| statusCode := 502; body := b |}
  = (n + 1,
     Rejected (JenkinsAPIError "Failure Threshold reached, exiting script....."),
     None).
Proof.
  intros H. unfold getJobStatus_switch; simpl.
  destruct (n >? FAILURE_THRESHOLD) eqn:E; [reflexivity|].
  rewrite Z.gtb_ltb in E. apply Z.ltb_ge in E. lia.
Qed.

(** The [switch] settles the promise unless it throws. *)
Lemma getJobStatus_switch_settles (n : Z) (res : response) :
  snd (getJobStatus_switch n res) = None ->
  snd (fst (getJobStatus_switch n res)) <> Pending.
Proof.
  unfold getJobStatus_switch.
  destruct (statusCode res =? 200).
  - destruct (JSON_parse (body res)); simpl; discriminate.
  - destruct (statusCode res =? 502); [|simpl; discriminate].
    destruct (n >? FAILURE_THRESHOLD); simpl; discriminate.
Qed.

Lemma getJobStatus_switch_counter (n : Z) (res : response) :
  n <= fst (fst (getJobStatus_switch n res)).
Proof.
  unfold getJobStatus_switch.
  destruct (statusCode res =? 200).
  - destruct (JSON_parse (body res)); simpl; lia.
  - destruct (statusCode res =? 502); simpl; lia.
Qed.

(** ** What holds of every state of a run *)

Lemma inv_main (cfg : config) : inv (main cfg).
Proof.
  unfold main, inv, SUCCESS_THRESHOLD. unfold_program.
  split_ifs; simpl; repeat split; try lia; try reflexivity; discriminate.
Qed.

Lemma truthy_executable_url (d : document) (u : string) :
  executable_url d = Some u -> Js.truthy u = true.
Proof.
  unfold executable_url. destruct (executable_ d) as [e|]; [|discriminate].
  destruct (url e) as [v|]; simpl; [|discriminate].
  destruct (Js.truthy v) eqn:E; [|discriminate].
  intros [= <-]. exact E.
Qed.

Lemma getJobStatus_switch_resolved (n n' : Z) (res : response) (v : value)
    (t : option error) :
  getJobStatus_switch n res = (n', Resolved v, t) ->
  n' = n /\ statusCode res = 200 /\ Json v = body res /\ t = None.
Proof.
  unfold getJobStatus_switch.
  destruct (statusCode res =? 200) eqn:E.
  - apply Z.eqb_eq in E.
    destruct (body res) as [m|w]; simpl; [discriminate|].
    intros [= <- <- <-]. auto.
  - destruct (statusCode res =? 502); [|simpl; discriminate].
    destruct (n >? FAILURE_THRESHOLD); simpl; discriminate.
Qed.

(** What the [switch] throws is the [SyntaxError] of [JSON.parse], on a
    200; the counter is as it was and the promise is pending. *)
Lemma getJobStatus_switch_thrown (n n' : Z) (res : response)
    (p : promise value error) (e : error) :
  getJobStatus_switch n res = (n', p, Some e) ->
  n' = n /\ p = Pending /\ statusCode res = 200 /\
  exists m, body res = Unparsable m /\ e = SyntaxError m.
Proof.
  unfold getJobStatus_switch.
  destruct (statusCode res =? 200) eqn:E.
  - apply Z.eqb_eq in E.
    destruct (body res) as [m|w]; simpl; [|discriminate].
    intros [= <- <- <-]. repeat split; auto. now exists m.
  - destruct (statusCode res =? 502); simpl; discriminate.
Qed.

Lemma inv_step (cfg : config) (s : state) (i : input) :
  inv s -> inv (step cfg s i).
Proof.
  destruct s as [fc sc jbu tm lg p]. unfold inv; simpl.
  intros (Hf & Hs & Hp).
  destruct i as [[a b|[loc|]]|res|err|]; destruct p as [|q [u|]|c]; simpl;
    try (repeat split; solve [lia | tauto | apply Hp]).
  all: unfold_program; simpl.
  all: try (pose proof (getJobStatus_switch_counter fc res) as Hc;
            pose proof (getJobStatus_switch_settles fc res) as Hn;
            pose proof (fun n' v t => getJobStatus_switch_resolved fc n' res v t)
              as Hr;
            destruct (getJobStatus_switch fc res) as [[fc' pr] [t|]];
            simpl in *;
            [|destruct pr as [|[| |d]|e]; [exfalso; now apply Hn|..]; simpl;
              try (destruct (Hr _ _ _ eq_refl) as (-> & _ & _ & _))];
            clear Hr).
  all: unfold SUCCESS_THRESHOLD in *.
  all: repeat match goal with
         | H : _ /\ _ |- _ => destruct H
         end; subst.
  all: try match goal with
         | H : Js.truthy _ = true |- _ => rewrite ?H
         end; simpl.
  all: try match goal with
         | |- context [executable_url ?d] =>
             pose proof (truthy_executable_url d) as Ht;
             destruct (executable_url d) as [v|];
             [specialize (Ht _ eq_refl); simpl; rewrite ?Ht|clear Ht]
         end; simpl.
  all: split_ifs; simpl.
  all: autorewrite with obs; simpl.
  all: repeat match goal with H : published _ = _ |- _ => rewrite H; clear H end; simpl.
  all: repeat split; try lia; try reflexivity; try discriminate; try tauto.
  all: try (intros ? ?; discriminate).
  all: try (intros ? _ E; apply app_eq_nil in E; destruct E; discriminate).
Qed.

Lemma steps_app (cfg : config) (s : state) (ins more : list input) :
  steps cfg s (ins ++ more) = steps cfg (steps cfg s ins) more.
Proof. apply fold_left_app. Qed.

Lemma steps_cons (cfg : config) (s : state) (i : input) (ins : list input) :
  steps cfg s (i :: ins) = steps cfg (step cfg s i) ins.
Proof. reflexivity. Qed.

Lemma run_app (cfg : config) (ins more : list input) :
  run cfg (ins ++ more) = steps cfg (run cfg ins) more.
Proof. apply steps_app. Qed.

Lemma run_snoc (cfg : config) (ins : list input) (i : input) :
  run cfg (ins ++ [i]) = step cfg (run cfg ins) i.
Proof. now rewrite run_app. Qed.

Lemma inv_steps (cfg : config) (ins : list input) (s : state) :
  inv s -> inv (steps cfg s ins).
Proof.
  revert s. induction ins as [|i ins IH]; intros s H; simpl; [exact H|].
  apply IH, inv_step, H.
Qed.

Lemma inv_run (cfg : config) (ins : list input) : inv (run cfg ins).
Proof. apply inv_steps, inv_main. Qed.

(** While a build is awaited its URL is truthy: line 133 sends every later
    iteration to the build. *)
Lemma awaited_build_truthy (cfg : config) (ins : list input) (q u : string) :
  pc (run cfg ins) = AwaitStatus q (Some u) -> Js.truthy u = true.
Proof.
  intros H. pose proof (inv_run cfg ins) as (_ & _ & I).
  rewrite H in I. apply I.
Qed.

(** The log only grows. *)
Lemma step_log (cfg : config) (s : state) (i : input) :
  exists es, log (step cfg s i) = (log s ++ es)%list.
Proof.
  destruct s as [fc sc jbu tm lg p].
  destruct i as [[a b|[loc|]]|res|err|]; destruct p as [|q bu|c]; simpl;
    try (exists []; now rewrite app_nil_r).
  all: unfold_program; simpl.
  all: try (destruct (getJobStatus_switch fc res) as [[fc' [|[| |d]|e]] [t|]]; simpl).
  all: split_ifs; simpl; autorewrite with obs; simpl.
  all: try (eexists; reflexivity).
  all: exists []; now rewrite app_nil_r.
Qed.

Lemma steps_log (cfg : config) (ins : list input) (s : state) :
  exists es, log (steps cfg s ins) = (log s ++ es)%list.
Proof.
  revert s. induction ins as [|i ins IH]; intros s; simpl.
  - exists []. now rewrite app_nil_r.
  - destruct (IH (step cfg s i)) as [es2 E2].
    destruct (step_log cfg s i) as [es1 E1].
    exists (es1 ++ es2)%list. now rewrite E2, E1, app_assoc.
Qed.

(** After the exit no input changes the state: the timer is released and no
    request is waited for. *)
Lemma exited_step (cfg : config) (s : state) (c : completion) (i : input) :
  pc s = Exited c -> timer s = false -> step cfg s i = s.
Proof.
  intros Hp Ht. unfold step, timer_callback. rewrite Hp, Ht. now destruct i.
Qed.

Lemma exited_steps (cfg : config) (ins : list input) (s : state)
    (c : completion) :
  pc s = Exited c -> timer s = false -> steps cfg s ins = s.
Proof.
  intros Hp Ht. induction ins as [|i ins IH]; simpl; [reflexivity|].
  now rewrite (exited_step cfg s c i Hp Ht).
Qed.

(** Lines 229-234, on an error: its message is reported and the timer is
    released. *)
Lemma main_catch_reports (e : error) (s : state) :
  log (main_catch (Some e) s)
  = (log s ++ [ESetFailed (message e); EError (message e); EClearTimeout])%list /\
  timer (main_catch (Some e) s) = false /\
  pc (main_catch (Some e) s) = Exited Normal.
Proof.
  unfold_program; simpl. autorewrite with obs. repeat split.
Qed.

(** ** One poll of the build (lines 161-205) *)

Section BuildPoll.

Variable cfg : config.
Variable s : state.
Variables q u : string.
Hypothesis awaiting : pc s = AwaitStatus q (Some u).
Hypothesis truthy_u : Js.truthy u = true.

Ltac build_poll :=
  destruct s as [fc sc jbu tm lg p]; simpl in *; subst p;
  unfold step, waitJenkinsJob_resume; simpl; rewrite ?truthy_u; simpl.

(** Lines 164-168: a body that parses to a falsy value. *)
Lemma poll_build_empty (v : value) :
  truthy_value v = false ->
  step cfg s (Status {| statusCode := 200; body := Json v |})
  = sleep_continue q (Some u) s.
Proof. intros Hv. build_poll. now destruct v. Qed.

(** Line 99: a body that [JSON.parse] refuses. *)
Lemma poll_build_unparsable (m : string) :
  step cfg s (Status {| statusCode := 200; body := Unparsable m |})
  = die (SyntaxError m) s.
Proof. build_poll. reflexivity. Qed.

(** Lines 91-96: no response. *)
Lemma poll_build_no_response (err : string) :
  step cfg s (NoStatus err)
  = die (TypeError "Cannot read properties of undefined (reading 'statusCode')")
        (clearTimeout s).
Proof. build_poll. reflexivity. Qed.

(** Lines 170-180, the counter below the threshold. *)
Lemma poll_build_success_counted (d : document) :
  result d = Some "SUCCESS" ->
  successCount s < SUCCESS_THRESHOLD ->
  step cfg s (ok d)
  = sleep_continue q (Some u) (set_successCount (successCount s + 1) s).
Proof.
  intros Hd Hc. build_poll. unfold try_block; simpl. rewrite Hd; simpl.
  destruct (sc >=? SUCCESS_THRESHOLD) eqn:E; [|reflexivity].
  rewrite Z.geb_leb in E. apply Z.leb_le in E. lia.
Qed.

(** Lines 174-179, the counter at the threshold. *)
Lemma poll_build_success_break (d : document) :
  result d = Some "SUCCESS" ->
  SUCCESS_THRESHOLD <= successCount s ->
  step cfg s (ok d) = main_finally Normal s.
Proof.
  intros Hd Hc. build_poll. unfold try_block; simpl. rewrite Hd; simpl.
  destruct (sc >=? SUCCESS_THRESHOLD) eqn:E; [reflexivity|].
  rewrite Z.geb_leb in E. apply Z.leb_gt in E. lia.
Qed.

(** Lines 190-193: a document whose [result] is none of the three. *)
Lemma poll_build_running (d : document) :
  Js.eq_literal (result d) "SUCCESS" = false ->
  Js.eq_literal (result d) "FAILURE" = false ->
  Js.eq_literal (result d) "ABORTED" = false ->
  step cfg s (ok d) = sleep_continue q (Some u) s.
Proof.
  intros H1 H2 H3. build_poll. unfold try_block; simpl.
  now rewrite H1, H2, H3.
Qed.

(** Lines 181-187 and 199-204. *)
Lemma poll_build_failed (d : document) :
  Js.eq_literal (result d) "FAILURE" || Js.eq_literal (result d) "ABORTED" = true ->
  step cfg s (ok d)
  = main_catch
      (Some (JsError ("Prod-to-env sync job failed,  " ++
                      "Job '" ++ Js.show (fullDisplayName d) ++ "' - "
                      ++ Js.show (jenkinsBuildUrl s) ++ " failed."))) s.
Proof.
  intros H. build_poll. unfold try_block; simpl.
  destruct (Js.eq_literal (result d) "SUCCESS") eqn:E.
  - destruct (result d) as [r|]; [|discriminate]. simpl in *.
    apply String.eqb_eq in E. subst r. discriminate.
  - now rewrite H.
Qed.

(** Lines 101-114 and 195-198: a 502 that finds the counter at most at the
    threshold is caught and the same poll is made again. *)
Lemma poll_build_bad_gateway (b : raw_body) :
  failureCount s <= FAILURE_THRESHOLD ->
  step cfg s (Status {| statusCode := 502; body := b |})
  = sleep_continue q (Some u) (set_failureCount (failureCount s + 1) s).
Proof.
  intros H. destruct s as [fc sc jbu tm lg p]; simpl in *; subst p.
  unfold step, waitJenkinsJob_resume, getJobStatus_callback;
    cbn [pc failureCount].
  rewrite (getJobStatus_switch_502_transient fc b H); simpl.
  now rewrite truthy_u.
Qed.

(** Lines 102-108 and 199-204: a 502 that finds the counter above the
    threshold ends the run. *)
Lemma poll_build_threshold (b : raw_body) :
  FAILURE_THRESHOLD < failureCount s ->
  step cfg s (Status {| statusCode := 502; body := b |})
  = main_catch
      (Some (JsError ("Prod-to-env sync job failed,  " ++
                      "Failure Threshold reached, exiting script.....")))
      (set_failureCount (failureCount s + 1) s).
Proof.
  intros H. destruct s as [fc sc jbu tm lg p]; simpl in *; subst p.
  unfold step, waitJenkinsJob_resume, getJobStatus_callback;
    cbn [pc failureCount].
  rewrite (getJobStatus_switch_502_escalated fc b H); simpl.
  now rewrite truthy_u.
Qed.

End BuildPoll.

(** [n] answers 502 in a row, while the counter stays at most at the
    threshold before each: the build is still awaited, the counter has gone
    up by [n] and nothing else has changed but the log, which has no new
    failure and no new output. *)
Lemma bad_gateways_retried (cfg : config) (q u : string) (n : nat) :
  forall s : state,
    pc s = AwaitStatus q (Some u) ->
    Js.truthy u = true ->
    failureCount s + Z.of_nat n <= FAILURE_THRESHOLD + 1 ->
    let s' := steps cfg s (repeat bad_gateway n) in
    pc s' = AwaitStatus q (Some u) /\
    failureCount s' = failureCount s + Z.of_nat n /\
    successCount s' = successCount s /\
    jenkinsBuildUrl s' = jenkinsBuildUrl s /\
    timer s' = timer s /\
    failures (log s') = failures (log s) /\
    published (log s') = published (log s).
Proof.
  induction n as [|n IH]; intros s Hp Hu Hc; cbn zeta.
  - simpl. repeat split; try lia; assumption.
  - change (repeat bad_gateway (S n)) with (bad_gateway :: repeat bad_gateway n).
    rewrite steps_cons.
    assert (step cfg s bad_gateway
            = sleep_continue q (Some u) (set_failureCount (failureCount s + 1) s))
      as -> by (apply poll_build_bad_gateway; [assumption..|lia]).
    set (s1 := sleep_continue q (Some u) _).
    assert (H1 : pc s1 = AwaitStatus q (Some u)) by reflexivity.
    assert (F1 : failureCount s1 = failureCount s + 1) by reflexivity.
    destruct (IH s1 H1 Hu) as (A & B & C & D & E & F & G); [lia|].
    rewrite A, B, C, D, E, F, G, F1. subst s1. unfold_program; simpl.
    autorewrite with obs; simpl.
    repeat split; try lia; now rewrite ?app_nil_r.
Qed.

(** * The claims *)

(** ** The start of a run *)

(** [main] reaches the trigger unless the parameter does not parse or does
    not print. *)
Lemma main_awaits_trigger (cfg : config) :
  pc (main cfg) = AwaitTrigger ->
  main cfg = triggerJenkinsJob cfg loaded.
Proof.
  unfold main.
  destruct (Js.truthy (input_parameter cfg)); [|reflexivity].
  destruct (parameter_syntax_error cfg); [discriminate|].
  destruct (parameter_toString_error cfg); [discriminate|reflexivity].
Qed.

(** Lines 64-74 and 226-228: a trigger answered with a location. *)
Lemma trigger_answered (cfg : config) (s : state) (location : string) :
  pc s = AwaitTrigger ->
  Js.truthy location = true ->
  step cfg s (Triggered (TriggerResponse (Some location)))
  = if String.eqb (input_wait cfg) "true"
    then waitJenkinsJob location s
    else main_finally Normal s.
Proof.
  intros Hp Hl. unfold step. rewrite Hp.
  unfold main_resume, triggerJenkinsJob_callback; simpl. now rewrite Hl.
Qed.

(** No step leads back to the trigger: a state in which the trigger is
    awaited comes from such a state, by an input that is not delivered or by
    the deadline. *)
Lemma step_to_trigger (cfg : config) (s : state) (i : input) :
  pc (step cfg s i) = AwaitTrigger ->
  pc s = AwaitTrigger /\
  ((is_timeout i = false /\ step cfg s i = s) \/
   (is_timeout i = true /\ step cfg s i = timer_callback s)).
Proof.
  destruct s as [fc sc jbu tm lg p].
  destruct i as [[a b|[loc|]]|res|err|]; destruct p as [|q bu|c]; simpl;
    try discriminate; try (intros _; split; [reflexivity|left; now split]).
  all: try (intros H; split; [|right; now split]; revert H).
  all: unfold_program; simpl.
  all: try (destruct (getJobStatus_switch fc res) as [[fc' [|[| |d]|e]] [t|]];
            simpl).
  all: split_ifs; simpl; try discriminate; try reflexivity.
Qed.

(** While the trigger is awaited nothing has happened but the request and,
    perhaps, the deadline. *)
Lemma awaiting_trigger (cfg : config) (pre : list input) :
  pc (run cfg pre) = AwaitTrigger ->
  run cfg pre
  = if existsb is_timeout pre
    then timer_callback (triggerJenkinsJob cfg loaded)
    else triggerJenkinsJob cfg loaded.
Proof.
  induction pre as [|i pre IH] using rev_ind.
  - intros H. exact (main_awaits_trigger cfg H).
  - rewrite run_snoc, existsb_app. cbn [existsb]. rewrite orb_false_r.
    intros H.
    destruct (step_to_trigger cfg _ i H) as (Hp & [[Hi E]|[Hi E]]);
      rewrite E, Hi, (IH Hp).
    + now rewrite orb_false_r.
    + rewrite orb_true_r. now destruct (existsb is_timeout pre).
Qed.

(** ** C9: the trailing separator of a status URL *)

(** C9.  For every status URL [u] that does not end in "/", [getJobStatus]
    on [u] and on [u ++ "/"] sends the same request, a GET of the normalised
    URL, [u ++ "/"], followed by "api/json": that request, and nothing else,
    is what either call adds to the log; so does the poll of a queue item
    whose URL is [u] or [u ++ "/"], and so does every run that waits and
    whose trigger is answered with either location.  Normalising twice is normalising
    once. *)
Theorem C9_trailing_separator (u : string) (H : Js.endsWith u "/" = false) :
  request_url (u ++ "/") = request_url u /\
  request_url u = (u ++ "/") ++ "api/json" /\
  (forall s : state, getJobStatus (u ++ "/") s = getJobStatus u s) /\
  (forall v : string, normalize (normalize v) = normalize v) /\
  (forall s : state,
      log (getJobStatus u s)
      = (log s ++ [EGet ((u ++ "/") ++ "api/json")])%list /\
      log (getJobStatus (u ++ "/") s)
      = (log s ++ [EGet ((u ++ "/") ++ "api/json")])%list) /\
  (forall s : state,
      log (poll u None s)
      = (log s ++ [EGet ((u ++ "/") ++ "api/json")])%list /\
      log (poll (u ++ "/") None s)
      = (log s ++ [EGet ((u ++ "/") ++ "api/json")])%list) /\
  (forall (cfg : config) (pre : list input),
      pc (run cfg pre) = AwaitTrigger ->
      input_wait cfg = "true" ->
      Js.truthy u = true ->
      polls (log (run cfg (pre ++ [Triggered (TriggerResponse (Some u))])))
      = [(u ++ "/") ++ "api/json"] /\
      polls (log (run cfg (pre ++ [Triggered (TriggerResponse (Some (u ++ "/")))])))
      = [(u ++ "/") ++ "api/json"]).
Proof.
  assert (E : request_url (u ++ "/") = request_url u).
  { unfold request_url.
    rewrite (normalize_fixed (u ++ "/")) by apply endsWith_append.
    unfold normalize. now rewrite H. }
  assert (R : request_url u = (u ++ "/") ++ "api/json")
    by (unfold request_url, normalize; now rewrite H).
  assert (G : forall w s, log (getJobStatus w s)
                          = (log s ++ [EGet (request_url w)])%list)
    by reflexivity.
  assert (T : Js.truthy (u ++ "/") = true) by now destruct u.
  split; [exact E|]. split; [exact R|]. split; [|split; [|split; [|split]]].
  - intros s. unfold getJobStatus. now rewrite E.
  - intros v. apply normalize_fixed, normalize_ends.
  - intros s. now rewrite !G, E, R.
  - intros s. unfold poll. cbn [Js.truthy_opt negb log goto].
    now rewrite !G, E, R.
  - intros cfg pre Hstart Hwait Hu.
    rewrite !run_snoc.
    rewrite (trigger_answered cfg _ u Hstart Hu),
            (trigger_answered cfg _ (u ++ "/") Hstart T),
            (awaiting_trigger cfg pre Hstart), Hwait.
    change (String.eqb "true" "true") with true. cbv iota.
    unfold waitJenkinsJob, poll. cbn [Js.truthy_opt negb log goto].
    rewrite !G, !polls_app, E, R.
    destruct (existsb is_timeout pre); split; reflexivity.
Qed.

(** At the queue URL of the sample run, written without its last "/". *)
Lemma C9_trailing_separator_witness :
  request_url ("https://ci/queue/5" ++ "/") = request_url "https://ci/queue/5" /\
  request_url "https://ci/queue/5" = "https://ci/queue/5/api/json".
Proof.
  destruct (C9_trailing_separator "https://ci/queue/5" eq_refl) as (A & B & _).
  split; [exact A | exact B].
Defined.

(** ** C10: the [wait] input *)

(** C10, counterexample.  The deadline expires before the trigger is
    answered; the trigger then succeeds and [wait] is not "true", and yet
    the process has not succeeded: "Job Timeout" stays reported. *)
Lemma C10_early_deadline_fails :
  ~ succeeds_when_not_waiting no_wait [Timeout] "https://ci/queue/5/".
Proof.
  unfold succeeds_when_not_waiting. intros H.
  specialize (H eq_refl eq_refl ltac:(discriminate)). discriminate H.
Qed.

(** C10, amended.  In every run, when the trigger is answered with a
    location, [waitJenkinsJob] is entered (its first poll, of the queue
    item, is awaited) if and only if the input [wait] is the string "true".
    For any other value [main] settles at once, no status request is made
    and no later input changes the state; the process has then succeeded
    exactly if the deadline had not expired before the answer, and otherwise
    "Job Timeout" is the failure it has reported. *)
Theorem C10_wait_flag (cfg : config) (pre more : list input) (location : string)
    (Hstart : pc (run cfg pre) = AwaitTrigger)
    (Hloc : Js.truthy location = true) :
  let s := run cfg (pre ++ [Triggered (TriggerResponse (Some location))]) in
  (pc s = AwaitStatus location None <-> input_wait cfg = "true") /\
  (input_wait cfg = "true" -> polls (log s) = [request_url location]) /\
  (input_wait cfg <> "true" ->
   pc s = Exited Normal /\
   polls (log s) = [] /\
   run cfg (pre ++ Triggered (TriggerResponse (Some location)) :: more) = s /\
   (succeeded s = true <-> existsb is_timeout pre = false) /\
   (existsb is_timeout pre = true -> failures (log s) = ["Job Timeout"])).
Proof.
  cbn zeta.
  change (Triggered (TriggerResponse (Some location)) :: more)
    with ([Triggered (TriggerResponse (Some location))] ++ more)%list.
  rewrite app_assoc, (run_app cfg (pre ++ _) more), run_snoc.
  rewrite (trigger_answered cfg _ location Hstart Hloc).
  rewrite (awaiting_trigger cfg pre Hstart).
  destruct (String.eqb_spec (input_wait cfg) "true") as [E|E].
  - split; [|split].
    + split; [intros _; exact E|intros _].
      now destruct (existsb is_timeout pre).
    + intros _. now destruct (existsb is_timeout pre).
    + intros; contradiction.
  - split; [|split].
    + split; [|intros; contradiction].
      destruct (existsb is_timeout pre); discriminate.
    + intros; contradiction.
    + intros _. split; [now destruct (existsb is_timeout pre)|].
      split; [now destruct (existsb is_timeout pre)|].
      split.
      * apply (exited_steps cfg more _ Normal);
          now destruct (existsb is_timeout pre).
      * destruct (existsb is_timeout pre).
        -- split; [split; discriminate | reflexivity].
        -- split; [split; reflexivity | discriminate].
Qed.

(** At the sample configuration, whose [wait] is "true", with the deadline
    before the answer. *)
Lemma C10_wait_flag_witness :
  pc (run sample ([Timeout]
                    ++ [Triggered (TriggerResponse (Some "https://ci/queue/5/"))]))
  = AwaitStatus "https://ci/queue/5/" None
  <-> input_wait sample = "true".
Proof.
  exact (proj1 (C10_wait_flag sample [Timeout] [] "https://ci/queue/5/"
                  eq_refl eq_refl)).
Defined.

(** The values of the claim that are not "true" leave no poll behind. *)
Example wait_True_is_not_true :
  forall w, In w ["True"; "TRUE"; "1"; ""] ->
  let cfg := {| input_url := "https://ci"; input_job_name := "deploy";
                input_parameter := ""; input_wait := w;
                parameter_syntax_error := None;
                parameter_toString_error := None |} in
  let s := run cfg (started ++ [ok (assigned "https://ci/build/5/")]) in
  succeeded s = true /\ polls (log s) = [].
Proof.
  intros w [<-|[<-|[<-|[<-|[]]]]]; split; reflexivity.
Qed.

(** ** C8: an empty body on a build poll *)

(** The part of the claim that the code keeps: while a build is awaited, a
    200 whose body parses to a falsy value ([null], [false], [0] or the
    empty string: the [buildData] of line 164) makes the machine sleep one
    interval and poll the same build again; the suspension point, the
    counters and the timer are as before and nothing is reported. *)
Lemma build_falsy_body_retried (cfg : config) (ins : list input) (q u : string)
    (v : value) :
  pc (run cfg ins) = AwaitStatus q (Some u) ->
  truthy_value v = false ->
  let s := run cfg ins in
  let s' := run cfg (ins ++ [Status {| statusCode := 200; body := Json v |}]) in
  log s' = (log s ++ [ESleep sleepInterval; EGet (request_url u)])%list /\
  pc s' = pc s /\
  failureCount s' = failureCount s /\
  successCount s' = successCount s /\
  jenkinsBuildUrl s' = jenkinsBuildUrl s /\
  timer s' = timer s /\
  failures (log s') = failures (log s).
Proof.
  intros Hbuild Hv. cbn zeta. rewrite run_snoc.
  pose proof (awaited_build_truthy cfg ins q u Hbuild) as Hu.
  rewrite (poll_build_empty cfg _ q u Hbuild Hu v Hv).
  unfold sleep_continue, poll, getJobStatus; simpl. rewrite Hu; simpl.
  autorewrite with obs; simpl. rewrite ?app_nil_r.
  repeat split; auto.
Qed.

(** C8.  What the code does, while a build is awaited, on a 200 whose body
    is empty or absent, or any other text that is not JSON: [JSON.parse]
    (line 99) throws inside the callback of the HTTP client, before
    [resolve]; the promise is never settled, the test of line 164 is never
    reached and nothing catches the exception.  The process is killed:
    there is no sleep and no further poll, nothing is reported, and no
    later input is processed. *)
Theorem C8_empty_body_kills (cfg : config) (ins more : list input)
    (q u m : string)
    (Hbuild : pc (run cfg ins) = AwaitStatus q (Some u)) :
  let s := run cfg ins in
  let killed := Status {| statusCode := 200; body := Unparsable m |} in
  let s' := run cfg (ins ++ [killed]) in
  pc s' = Exited (Killed (SyntaxError m)) /\
  log s' = log s /\
  succeeded s' = false /\
  run cfg (ins ++ killed :: more) = s'.
Proof.
  cbn zeta.
  change (Status {| statusCode := 200; body := Unparsable m |} :: more)
    with ([Status {| statusCode := 200; body := Unparsable m |}] ++ more)%list.
  rewrite app_assoc, (run_app cfg (ins ++ _) more), run_snoc.
  pose proof (awaited_build_truthy cfg ins q u Hbuild) as Hu.
  rewrite (poll_build_unparsable cfg _ q u Hbuild m).
  repeat split.
  apply (exited_steps cfg more _ (Killed (SyntaxError m))); reflexivity.
Qed.

(** At the sample run, once its build is awaited, on an empty body. *)
Lemma C8_empty_body_kills_witness :
  pc (run sample
        (building ++ [Status {| statusCode := 200;
                                body := Unparsable "Unexpected end of JSON input" |}]))
  = Exited (Killed (SyntaxError "Unexpected end of JSON input")).
Proof.
  exact (proj1 (C8_empty_body_kills sample building []
                  "https://ci/queue/5/" "https://ci/build/5/"
                  "Unexpected end of JSON input" eq_refl)).
Defined.

(** ** C1: 502 answers and the failure threshold *)

(** C1.  What the code does on a row of 502 answers while a build is
    awaited, the counter being at zero: eleven of them are all retried (the
    build is still awaited, nothing is reported as failed), and it is the
    twelfth that ends the run with the threshold message.  The test of line
    102 reads the counter before line 109 increments it. *)
Theorem C1_threshold_at_twelfth (cfg : config) (ins : list input) (q u : string)
    (Hbuild : pc (run cfg ins) = AwaitStatus q (Some u))
    (Hzero : failureCount (run cfg ins) = 0) :
  let s := run cfg ins in
  let s11 := run cfg (ins ++ repeat bad_gateway 11) in
  let s12 := run cfg (ins ++ repeat bad_gateway 12) in
  pc s11 = AwaitStatus q (Some u) /\
  failureCount s11 = 11 /\
  failures (log s11) = failures (log s) /\
  pc s12 = Exited Normal /\
  failures (log s12)
  = (failures (log s)
     ++ ["Prod-to-env sync job failed,  Failure Threshold reached, exiting script....."])%list.
Proof.
  cbn zeta.
  pose proof (awaited_build_truthy cfg ins q u Hbuild) as Hu.
  change (repeat bad_gateway 12) with (bad_gateway :: repeat bad_gateway 11).
  rewrite repeat_cons, app_assoc, run_snoc, run_app.
  destruct (bad_gateways_retried cfg q u 11 (run cfg ins) Hbuild Hu)
    as (A & B & _ & _ & _ & F & _).
  { rewrite Hzero. unfold FAILURE_THRESHOLD. lia. }
  set (s11 := steps cfg (run cfg ins) (repeat bad_gateway 11)) in *.
  rewrite Hzero in B. change (0 + Z.of_nat 11) with 11 in B.
  assert (E : step cfg s11 bad_gateway
              = main_catch
                  (Some (JsError ("Prod-to-env sync job failed,  " ++
                                  "Failure Threshold reached, exiting script.....")))
                  (set_failureCount (failureCount s11 + 1) s11)).
  { apply (poll_build_threshold cfg s11 q u A Hu).
    rewrite B. unfold FAILURE_THRESHOLD. lia. }
  rewrite E.
  destruct (main_catch_reports
              (JsError ("Prod-to-env sync job failed,  " ++
                        "Failure Threshold reached, exiting script....."))
              (set_failureCount (failureCount s11 + 1) s11)) as (L & _ & P).
  repeat split; try assumption.
  rewrite L. change (log (set_failureCount (failureCount s11 + 1) s11))
    with (log s11).
  rewrite failures_app, F. reflexivity.
Qed.

(** At the sample run, once its build is awaited. *)
Lemma C1_threshold_at_twelfth_witness :
  pc (run sample (building ++ repeat bad_gateway 11))
  = AwaitStatus "https://ci/queue/5/" (Some "https://ci/build/5/").
Proof.
  exact (proj1 (C1_threshold_at_twelfth sample building
                  "https://ci/queue/5/" "https://ci/build/5/" eq_refl eq_refl)).
Defined.

(** Eleven 502 answers and then four successes: the process succeeds. *)
Example eleven_bad_gateways_then_success :
  let s := run sample (building ++ repeat bad_gateway 11
                         ++ repeat (ok (build (Some "SUCCESS"))) 4) in
  succeeded s = true /\ failureCount s = 11 /\ failures (log s) = [].
Proof. repeat split. Qed.

(** ** C2: the success counter *)

(** C2.  What the code does on successes in a row while a build is awaited,
    the counter being at zero: after the third the build is still awaited
    (the machine has slept and polled again, the counter is at 3), and it is
    the fourth that leaves the loop.  The test of line 174 reads the counter
    before line 180 increments it. *)
Theorem C2_exit_at_fourth_success (cfg : config) (ins : list input)
    (q u : string) (d1 d2 d3 d4 : document)
    (Hbuild : pc (run cfg ins) = AwaitStatus q (Some u))
    (Hzero : successCount (run cfg ins) = 0)
    (H1 : result d1 = Some "SUCCESS") (H2 : result d2 = Some "SUCCESS")
    (H3 : result d3 = Some "SUCCESS") (H4 : result d4 = Some "SUCCESS") :
  let s := run cfg ins in
  let s3 := run cfg (ins ++ [ok d1; ok d2; ok d3]) in
  let s4 := run cfg (ins ++ [ok d1; ok d2; ok d3; ok d4]) in
  pc s3 = AwaitStatus q (Some u) /\
  successCount s3 = 3 /\
  log s3 = (log s ++ [ESleep 10; EGet (request_url u);
                      ESleep 10; EGet (request_url u);
                      ESleep 10; EGet (request_url u)])%list /\
  pc s4 = Exited Normal /\
  log s4 = (log s3 ++ [EClearTimeout])%list.
Proof.
  cbn zeta.
  pose proof (awaited_build_truthy cfg ins q u Hbuild) as Hu.
  change [ok d1; ok d2; ok d3; ok d4] with ([ok d1; ok d2; ok d3] ++ [ok d4])%list.
  rewrite app_assoc, (run_snoc cfg (ins ++ _)), run_app.
  generalize dependent (run cfg ins). intros s Hbuild Hzero.
  rewrite !steps_cons. cbn [steps fold_left].
  rewrite (poll_build_success_counted cfg s q u Hbuild Hu d1 H1)
    by (rewrite Hzero; unfold SUCCESS_THRESHOLD; lia).
  set (s1 := sleep_continue q (Some u) _).
  rewrite (poll_build_success_counted cfg s1 q u eq_refl Hu d2 H2)
    by (cbn; rewrite Hzero; unfold SUCCESS_THRESHOLD; lia).
  set (s2 := sleep_continue q (Some u) _).
  rewrite (poll_build_success_counted cfg s2 q u eq_refl Hu d3 H3)
    by (cbn; rewrite Hzero; unfold SUCCESS_THRESHOLD; lia).
  set (s3 := sleep_continue q (Some u) _).
  rewrite (poll_build_success_break cfg s3 q u eq_refl Hu d4 H4)
    by (cbn; rewrite Hzero; unfold SUCCESS_THRESHOLD; lia).
  subst s3 s2 s1. unfold sleep_continue, poll; simpl. rewrite Hu, Hzero; simpl.
  autorewrite with obs; simpl.
  repeat split.
Qed.

(** At the sample run, once its build is awaited. *)
Lemma C2_exit_at_fourth_success_witness :
  pc (run sample (building ++ repeat (ok (build (Some "SUCCESS"))) 3))
  = AwaitStatus "https://ci/queue/5/" (Some "https://ci/build/5/").
Proof.
  exact (proj1 (C2_exit_at_fourth_success sample building
                  "https://ci/queue/5/" "https://ci/build/5/"
                  (build (Some "SUCCESS")) (build (Some "SUCCESS"))
                  (build (Some "SUCCESS")) (build (Some "SUCCESS"))
                  eq_refl eq_refl eq_refl eq_refl eq_refl eq_refl)).
Defined.

(** The half of the claim that the code keeps: two successes and then a
    document that is neither a success nor a failure leave the build
    awaited. *)
Lemma two_successes_then_running (cfg : config) (ins : list input)
    (q u : string) (d1 d2 r : document) :
  pc (run cfg ins) = AwaitStatus q (Some u) ->
  successCount (run cfg ins) = 0 ->
  result d1 = Some "SUCCESS" -> result d2 = Some "SUCCESS" ->
  Js.eq_literal (result r) "SUCCESS" = false ->
  Js.eq_literal (result r) "FAILURE" = false ->
  Js.eq_literal (result r) "ABORTED" = false ->
  let s' := run cfg (ins ++ [ok d1; ok d2; ok r]) in
  pc s' = AwaitStatus q (Some u) /\ successCount s' = 2 /\
  failures (log s') = failures (log (run cfg ins)).
Proof.
  intros Hbuild Hzero H1 H2 R1 R2 R3. cbn zeta.
  pose proof (awaited_build_truthy cfg ins q u Hbuild) as Hu.
  rewrite run_app.
  generalize dependent (run cfg ins). intros s Hbuild Hzero.
  rewrite !steps_cons. cbn [steps fold_left].
  rewrite (poll_build_success_counted cfg s q u Hbuild Hu d1 H1)
    by (rewrite Hzero; unfold SUCCESS_THRESHOLD; lia).
  set (s1 := sleep_continue q (Some u) _).
  rewrite (poll_build_success_counted cfg s1 q u eq_refl Hu d2 H2)
    by (cbn; rewrite Hzero; unfold SUCCESS_THRESHOLD; lia).
  set (s2 := sleep_continue q (Some u) _).
  rewrite (poll_build_running cfg s2 q u eq_refl Hu r R1 R2 R3).
  subst s2 s1. unfold sleep_continue, poll; simpl. rewrite Hu, Hzero; simpl.
  autorewrite with obs; simpl. rewrite ?app_nil_r.
  repeat split.
Qed.

(** ** C3: a 502 in each phase *)

(** The half of the claim that the code keeps: while a build is awaited, a
    502 that finds the counter at most at the threshold makes the machine
    sleep one interval and poll the same build again; nothing is reported,
    and only the failure counter has moved, by the one of line 109. *)
Lemma build_bad_gateway_retried (cfg : config) (ins : list input) (q u : string)
    (b : raw_body) :
  pc (run cfg ins) = AwaitStatus q (Some u) ->
  failureCount (run cfg ins) <= FAILURE_THRESHOLD ->
  let s := run cfg ins in
  let s' := run cfg (ins ++ [Status {| statusCode := 502; body := b |}]) in
  log s' = (log s ++ [ESleep sleepInterval; EGet (request_url u)])%list /\
  pc s' = pc s /\
  failureCount s' = failureCount s + 1 /\
  successCount s' = successCount s /\
  jenkinsBuildUrl s' = jenkinsBuildUrl s /\
  timer s' = timer s.
Proof.
  intros Hbuild Hc. cbn zeta. rewrite run_snoc.
  pose proof (awaited_build_truthy cfg ins q u Hbuild) as Hu.
  rewrite (poll_build_bad_gateway cfg _ q u Hbuild Hu b Hc).
  unfold sleep_continue, poll; simpl. rewrite Hu; simpl.
  autorewrite with obs; simpl.
  repeat split; auto.
Qed.

(** C3.  What the code does on a 502 while the queue item is awaited: the
    counter is at most at the threshold (it is at zero), and yet the
    [BadGatewayError] is not retried.  The poll of line 134 is outside the
    [try] of line 161, so the rejection leaves [waitJenkinsJob] and reaches
    the [catch] of [main]: the failure is reported, the timer is released
    and the process has failed, without a sleep and without another poll. *)
Theorem C3_queue_bad_gateway_fatal (cfg : config) (ins : list input)
    (q : string) (b : raw_body)
    (Hqueue : pc (run cfg ins) = AwaitStatus q None) :
  let s := run cfg ins in
  let s' := run cfg (ins ++ [Status {| statusCode := 502; body := b |}]) in
  failureCount s <= FAILURE_THRESHOLD /\
  pc s' = Exited Normal /\
  log s' = (log s ++ [ESetFailed "Wrong http response from host - 502";
                      EError "Wrong http response from host - 502";
                      EClearTimeout])%list /\
  succeeded s' = false.
Proof.
  cbn zeta. rewrite run_snoc.
  pose proof (inv_run cfg ins) as (_ & _ & I). rewrite Hqueue in I.
  destruct I as (_ & _ & Hf & _).
  destruct (run cfg ins) as [fc sc jbu tm lg p]; simpl in *; subst.
  unfold step, waitJenkinsJob_resume, getJobStatus_callback;
    cbn [pc failureCount].
  rewrite getJobStatus_switch_502_transient by (unfold FAILURE_THRESHOLD; lia).
  unfold succeeded; simpl. autorewrite with obs; simpl.
  repeat split; try (unfold FAILURE_THRESHOLD; lia).
  now destruct (failures lg).
Qed.

(** At the sample run, on its first poll of the queue. *)
Lemma C3_queue_bad_gateway_fatal_witness :
  succeeded (run sample (started ++ [bad_gateway])) = false.
Proof.
  exact (proj2 (proj2 (proj2
    (C3_queue_bad_gateway_fatal sample started "https://ci/queue/5/" _ eq_refl)))).
Defined.

(** ** C4: the published build URL *)

Lemma step_publishes_nothing (cfg : config) (s : state) (i : input) :
  assigned_or_exited s ->
  assigned_or_exited (step cfg s i) /\
  published (log (step cfg s i)) = published (log s).
Proof.
  destruct s as [fc sc jbu tm lg p]. unfold assigned_or_exited; simpl.
  destruct i as [t|res|err|]; destruct p as [|q [u|]|c]; simpl;
    try contradiction; try (intros; split; [assumption|reflexivity]).
  all: intros Hu; unfold_program; simpl; rewrite ?Hu; simpl.
  all: try (destruct (getJobStatus_switch fc res) as [[fc' [|[| |d]|e]] [t|]]; simpl).
  all: split_ifs; simpl; autorewrite with obs; simpl; rewrite ?app_nil_r.
  all: split; auto.
Qed.

Lemma steps_publish_nothing (cfg : config) (more : list input) (s : state) :
  assigned_or_exited s ->
  published (log (steps cfg s more)) = published (log s).
Proof.
  revert s. induction more as [|i more IH]; intros s H; [reflexivity|].
  rewrite steps_cons.
  destruct (step_publishes_nothing cfg s i H) as [H' E].
  now rewrite (IH _ H').
Qed.

(** Lines 136-150 and 161-162: the queue document that assigns the build. *)
Lemma poll_queue_assigned (cfg : config) (s : state) (q u : string)
    (d : document) :
  pc s = AwaitStatus q None ->
  cancelled d = false ->
  executable_url d = Some u ->
  step cfg s (ok d)
  = poll q (Some u)
      (emit [ESetOutput "jenkinsBuildUrl" u] (set_jenkinsBuildUrl (Some u) s)).
Proof.
  intros Hp Hc Hu. pose proof (truthy_executable_url d u Hu) as Ht.
  destruct s as [fc sc jbu tm lg p]; simpl in *; subst p.
  unfold step, waitJenkinsJob_resume, queue_block; simpl. rewrite Hc, Hu; simpl.
  rewrite Ht; simpl. unfold poll; simpl. rewrite Ht; simpl.
  destruct jbu; simpl; rewrite Ht; reflexivity.
Qed.

(** C4.  The output [jenkinsBuildUrl] is given a value at most once in a
    run.  While the queue item is awaited nothing has been published; the
    first queue document that carries an executable URL (and is accepted:
    cancellation is tested first) publishes that URL; and whatever arrives
    afterwards, documents with another executable URL included, the
    published value stays that one. *)
Theorem C4_published_once (cfg : config) (ins more : list input)
    (q u : string) (d : document)
    (Hqueue : pc (run cfg ins) = AwaitStatus q None)
    (Hc : cancelled d = false)
    (Hu : executable_url d = Some u) :
  published (log (run cfg ins)) = [] /\
  published (log (run cfg (ins ++ [ok d]))) = [u] /\
  published (log (run cfg (ins ++ ok d :: more))) = [u] /\
  (forall any : list input, (length (published (log (run cfg any))) <= 1)%nat).
Proof.
  assert (P0 : published (log (run cfg ins)) = []).
  { pose proof (inv_run cfg ins) as (_ & _ & I). rewrite Hqueue in I. apply I. }
  assert (P1 : published (log (run cfg (ins ++ [ok d]))) = [u]).
  { rewrite run_snoc, (poll_queue_assigned cfg _ q u d Hqueue Hc Hu).
    unfold poll; simpl. autorewrite with obs; simpl.
    rewrite P0. reflexivity. }
  repeat split; try assumption.
  - change (ok d :: more) with ([ok d] ++ more)%list.
    rewrite app_assoc, run_app, steps_publish_nothing; [exact P1|].
    rewrite run_snoc, (poll_queue_assigned cfg _ q u d Hqueue Hc Hu).
    unfold assigned_or_exited, poll; simpl.
    apply (truthy_executable_url d u Hu).
  - intros any. pose proof (inv_run cfg any) as (_ & _ & I).
    destruct (pc (run cfg any)) as [|q' [u'|]|c].
    + destruct I as (-> & _). simpl. lia.
    + destruct I as (_ & _ & ->). simpl. lia.
    + destruct I as (-> & _). simpl. lia.
    + apply I.
Qed.

(** At the sample run, followed by documents that carry other URLs. *)
Lemma C4_published_once_witness :
  published
    (log (run sample (started ++ [ok (queued "waiting")]
                        ++ ok (assigned "https://ci/build/5/")
                        :: [ok (assigned "https://ci/build/6/");
                            ok (build None);
                            ok (assigned "https://ci/build/7/")])))
  = ["https://ci/build/5/"].
Proof.
  exact (proj1 (proj2 (proj2
    (C4_published_once sample (started ++ [ok (queued "waiting")])
       [ok (assigned "https://ci/build/6/"); ok (build None);
        ok (assigned "https://ci/build/7/")]
       "https://ci/queue/5/" "https://ci/build/5/"
       (assigned "https://ci/build/5/") eq_refl eq_refl eq_refl)))).
Defined.

(** ** C5: what a successful exit needs *)

(** C5, counterexample.  The run succeeds on successes none of which
    follows another: the counter is not reset by the documents in between. *)
Lemma C5_interrupted_successes_succeed :
  ~ debounced sample (building ++ interrupted_successes).
Proof.
  unfold debounced. intros H. specialize (H eq_refl). discriminate H.
Qed.

(** The success counter never goes down. *)
Lemma step_successCount (cfg : config) (s : state) (i : input) :
  successCount s <= successCount (step cfg s i).
Proof.
  destruct s as [fc sc jbu tm lg p].
  destruct i as [[a b|[loc|]]|res|err|]; destruct p as [|q [u|]|c]; simpl;
    try lia.
  all: unfold_program; simpl.
  all: try (destruct (getJobStatus_switch fc res) as [[fc' [|[| |d]|e]] [t|]]; simpl).
  all: split_ifs; simpl; lia.
Qed.

(** Unless it leaves the loop by the [break] of line 178, a step from a poll
    ends where the process has not succeeded: in the handler of [main], or
    suspended on the next poll. *)
Lemma succeeded_main_catch (e : error) (s : state) :
  succeeded (main_catch (Some e) s) = false.
Proof.
  unfold succeeded, main_catch, main_finally, goto, clearTimeout, set_timer, emit;
    simpl.
  autorewrite with obs; simpl. now destruct (failures (log s)).
Qed.

Lemma succeeded_sleep_continue (q : string) (b : option string) (s : state) :
  succeeded (sleep_continue q b s) = false.
Proof. reflexivity. Qed.

Lemma succeeded_die (e : error) (s : state) : succeeded (die e s) = false.
Proof. reflexivity. Qed.

Lemma succeeded_queue_block (cfg : config) (q : string) (b : option string)
    (queueData : value) (s : state) :
  succeeded (queue_block cfg q b queueData s) = false.
Proof.
  unfold queue_block.
  destruct (properties queueData) as [d|]; [|apply succeeded_main_catch].
  destruct (cancelled d); [apply succeeded_main_catch|].
  destruct (executable_url d) as [u|]; cbn zeta iota beta.
  - destruct (negb (Js.truthy_opt (Some u))); reflexivity.
  - destruct (negb (Js.truthy_opt b)); reflexivity.
Qed.

Lemma succeeded_try_catch (q : string) (b : option string) (e : error)
    (s : state) :
  succeeded (try_catch q b e s) = false.
Proof.
  unfold try_catch.
  destruct (instanceof_BadGatewayError e);
    [reflexivity | apply succeeded_main_catch].
Qed.

Lemma succeeded_try_block (q : string) (b : option string)
    (buildData : value) (s : state) :
  succeeded (try_block q b buildData s) = true ->
  exists d, buildData = Object d /\
            Js.eq_literal (result d) "SUCCESS" = true /\
            SUCCESS_THRESHOLD <= successCount s.
Proof.
  unfold try_block. destruct buildData as [| |d]; try discriminate.
  destruct (Js.eq_literal (result d) "SUCCESS") eqn:Hd.
  - destruct (successCount s >=? SUCCESS_THRESHOLD) eqn:Hc; [|discriminate].
    intros _. exists d. rewrite Z.geb_leb in Hc. apply Z.leb_le in Hc. auto.
  - destruct (_ || _); [|discriminate].
    now rewrite succeeded_try_catch.
Qed.

(** Leaving the loop with success: the answer is a success and it finds the
    counter at the threshold. *)
Lemma step_success_exit (cfg : config) (s : state) (i : input) (q : string)
    (b : option string) :
  pc s = AwaitStatus q b ->
  succeeded (step cfg s i) = true ->
  is_success i = true /\ b <> None /\ SUCCESS_THRESHOLD <= successCount s.
Proof.
  intros Hp Hs.
  assert (Hw : succeeded s = false) by (unfold succeeded; now rewrite Hp).
  unfold step in Hs. rewrite Hp in Hs.
  destruct i as [t|res|err|].
  - congruence.
  - unfold waitJenkinsJob_resume, getJobStatus_callback in Hs.
    pose proof (fun n' v t => getJobStatus_switch_resolved
                                 (failureCount s) n' res v t) as Hr.
    destruct (getJobStatus_switch (failureCount s) res) as [[n pr] [t|]];
      [now rewrite succeeded_die in Hs|].
    assert (Hn : succeeded (set_failureCount n s) = false)
      by (unfold succeeded; simpl; now rewrite Hp).
    destruct (negb (Js.truthy_opt b)) eqn:Hb.
    + destruct pr as [|queueData|e]; [congruence| |].
      * now rewrite succeeded_queue_block in Hs.
      * now rewrite succeeded_main_catch in Hs.
    + destruct pr as [|buildData|e]; [congruence| |].
      * destruct (succeeded_try_block _ _ _ _ Hs) as (d & -> & Hd & Hc).
        destruct (Hr _ _ _ eq_refl) as (_ & H200 & Hbody & _).
        simpl. rewrite H200, <- Hbody, Hd. repeat split; [|exact Hc].
        intros ->. discriminate.
      * now rewrite succeeded_try_catch in Hs.
  - unfold waitJenkinsJob_resume, getJobStatus_callback in Hs.
    now rewrite succeeded_die in Hs.
  - unfold timer_callback in Hs. destruct (timer s); [|congruence].
    unfold succeeded in Hs; simpl in Hs. now rewrite Hp in Hs.
Qed.

(** C5, amended.  The loop is left with success only on an answer that is
    classified as a success and finds the counter at the threshold; the
    counter is never reset or decreased in a run, and a document of a build
    that is still running leaves it as it is: successes count towards the
    threshold whether or not they follow one another. *)
Theorem C5_success_needs_counter (cfg : config) (ins : list input) (i : input)
    (q : string) (b : option string)
    (Hwait : pc (run cfg ins) = AwaitStatus q b)
    (Hexit : succeeded (run cfg (ins ++ [i])) = true) :
  is_success i = true /\
  successCount (run cfg ins) = SUCCESS_THRESHOLD /\
  successCount (run cfg (ins ++ [i])) = SUCCESS_THRESHOLD /\
  (forall (pre : list input) (j : input),
      successCount (run cfg pre) <= successCount (run cfg (pre ++ [j]))) /\
  (forall (pre : list input) (q' u : string) (r : document),
      pc (run cfg pre) = AwaitStatus q' (Some u) ->
      Js.eq_literal (result r) "SUCCESS" = false ->
      Js.eq_literal (result r) "FAILURE" = false ->
      Js.eq_literal (result r) "ABORTED" = false ->
      pc (run cfg (pre ++ [ok r])) = AwaitStatus q' (Some u) /\
      successCount (run cfg (pre ++ [ok r])) = successCount (run cfg pre)).
Proof.
  rewrite run_snoc in Hexit.
  destruct (step_success_exit cfg _ i q b Hwait Hexit) as (Hi & Hb & Hc).
  pose proof (inv_run cfg ins) as (_ & [_ Hle] & _).
  assert (E : successCount (run cfg ins) = SUCCESS_THRESHOLD) by lia.
  split; [exact Hi|]. split; [exact E|]. split; [|split].
  - destruct b as [u|]; [|contradiction].
    pose proof (awaited_build_truthy cfg ins q u Hwait) as Hu.
    destruct i as [t|res|err|]; try discriminate.
    simpl in Hi. apply andb_prop in Hi. destruct Hi as [H200 Hd].
    apply Z.eqb_eq in H200.
    destruct res as [code [m|[| |d]]]; simpl in *; try discriminate.
    subst code.
    destruct (result d) as [r|] eqn:Hr; [|discriminate].
    simpl in Hd. apply String.eqb_eq in Hd. subst r.
    rewrite run_snoc.
    change (Status {| statusCode := 200; body := Json (Object d) |}) with (ok d).
    rewrite (poll_build_success_break cfg _ q u Hwait Hu d Hr) by lia.
    exact E.
  - intros pre j. rewrite run_snoc. apply step_successCount.
  - intros pre q' u r Hp R1 R2 R3.
    pose proof (awaited_build_truthy cfg pre q' u Hp) as Hu.
    rewrite run_snoc, (poll_build_running cfg _ q' u Hp Hu r R1 R2 R3).
    split; reflexivity.
Qed.

(** At the last of the interrupted successes. *)
Lemma C5_success_needs_counter_witness :
  is_success (ok (build (Some "SUCCESS"))) = true /\
  successCount
    (run sample ((building ++ removelast interrupted_successes)
                   ++ [ok (build (Some "SUCCESS"))]))
  = SUCCESS_THRESHOLD.
Proof.
  destruct (C5_success_needs_counter sample
              (building ++ removelast interrupted_successes)
              (ok (build (Some "SUCCESS")))
              "https://ci/queue/5/" (Some "https://ci/build/5/")
              eq_refl eq_refl) as (A & _ & B & _).
  split; [exact A | exact B].
Defined.

(** ** C6: the deadline *)

(** C6, counterexample.  The deadline expires while the build is awaited;
    the next answer is processed all the same and the build is polled
    again. *)
Lemma C6_polling_goes_on :
  ~ polling_abandoned sample building [ok (build None)].
Proof.
  unfold polling_abandoned. intros H. discriminate H.
Qed.

Lemma same_course_timeout (cfg : config) (s : state) :
  same_course (step cfg s Timeout) s.
Proof.
  destruct s as [fc sc jbu tm lg p]. unfold same_course, step, timer_callback; simpl.
  destruct tm; simpl; autorewrite with obs; simpl; repeat split;
    now rewrite ?app_nil_r.
Qed.

Lemma same_course_step (cfg : config) (s s' : state) (i : input) :
  same_course s s' -> same_course (step cfg s i) (step cfg s' i).
Proof.
  destruct s as [fc sc jbu tm lg p], s' as [fc' sc' jbu' tm' lg' p'].
  unfold same_course; simpl.
  intros (<- & <- & <- & <- & Hp & Hs & Ho).
  destruct i as [[a b|[loc|]]|res|err|]; destruct p as [|q [u|]|c]; simpl;
    try (repeat split; assumption).
  all: unfold_program; simpl.
  all: try (destruct (getJobStatus_switch fc res) as [[fc1 [|[| |d]|e]] [t|]]; simpl).
  all: split_ifs; simpl; autorewrite with obs; simpl.
  all: rewrite ?Hp, ?Hs, ?Ho; repeat split; reflexivity.
Qed.

Lemma same_course_steps (cfg : config) (ins : list input) (s s' : state) :
  same_course s s' -> same_course (steps cfg s ins) (steps cfg s' ins).
Proof.
  revert s s'. induction ins as [|i ins IH]; intros s s' H; [exact H|].
  rewrite !steps_cons. apply IH, same_course_step, H.
Qed.

(** C6, amended.  If the deadline expires while the timer is pending (so
    before [main] has settled), "Job Timeout" is reported as a failure and
    the process has failed for good, whatever happens next; the polling is
    not abandoned: the machine stays where it was suspended, with its
    counters, and on the inputs that follow it takes the same course (same
    suspension points, counters, requests, sleeps and output) as it would
    have taken without the deadline. *)
Theorem C6_deadline_only_reports (cfg : config) (ins more : list input)
    (Harmed : timer (run cfg ins) = true) :
  let s := run cfg ins in
  let s' := run cfg (ins ++ [Timeout]) in
  (forall c, pc s <> Exited c) /\
  log s' = (log s ++ [ESetFailed "Job Timeout";
                      EError "Exception Error: Timed out"])%list /\
  same_course s' s /\
  In "Job Timeout" (failures (log (run cfg (ins ++ Timeout :: more)))) /\
  succeeded (run cfg (ins ++ Timeout :: more)) = false /\
  same_course (run cfg (ins ++ Timeout :: more)) (run cfg (ins ++ more)).
Proof.
  cbn zeta.
  assert (L : log (run cfg (ins ++ [Timeout]))
              = (log (run cfg ins) ++ [ESetFailed "Job Timeout";
                                       EError "Exception Error: Timed out"])%list).
  { rewrite run_snoc. unfold step, timer_callback. now rewrite Harmed. }
  assert (F : In "Job Timeout"
                (failures (log (run cfg (ins ++ Timeout :: more))))).
  { change (Timeout :: more) with ([Timeout] ++ more)%list.
    rewrite app_assoc, run_app.
    destruct (steps_log cfg more (run cfg (ins ++ [Timeout]))) as [es ->].
    rewrite L. autorewrite with obs; simpl.
    apply in_or_app. right. now left. }
  split; [|split; [|split; [|split; [|split]]]].
  - intros c Hc. pose proof (inv_run cfg ins) as (_ & _ & I).
    rewrite Hc in I. destruct I as (I & _). congruence.
  - exact L.
  - rewrite run_snoc. apply same_course_timeout.
  - exact F.
  - unfold succeeded.
    destruct (pc _) as [| |[| |]]; try reflexivity.
    destruct (failures _); [contradiction|reflexivity].
  - rewrite !run_app, steps_cons.
    apply same_course_steps, same_course_timeout.
Qed.

(** At the sample run: the deadline expires, then four successes arrive. *)
Lemma C6_deadline_only_reports_witness :
  succeeded
    (run sample (building ++ Timeout :: repeat (ok (build (Some "SUCCESS"))) 4))
  = false /\
  pc (run sample (building ++ Timeout :: repeat (ok (build (Some "SUCCESS"))) 4))
  = pc (run sample (building ++ repeat (ok (build (Some "SUCCESS"))) 4)).
Proof.
  destruct (C6_deadline_only_reports sample building
              (repeat (ok (build (Some "SUCCESS"))) 4) eq_refl)
    as (_ & _ & _ & _ & A & B & _).
  split; [exact A | exact B].
Defined.

(** ** C7: fatal conditions and the handler of [main] *)

(** Lines 91-96: no response while a poll is awaited, of the queue or of
    the build. *)
Lemma poll_no_response (cfg : config) (s : state) (q : string)
    (b : option string) (err : string) :
  pc s = AwaitStatus q b ->
  step cfg s (NoStatus err)
  = die (TypeError "Cannot read properties of undefined (reading 'statusCode')")
        (clearTimeout s).
Proof. intros Hp. unfold step. now rewrite Hp. Qed.

(** Line 99: a body that [JSON.parse] refuses while a poll is awaited, of
    the queue or of the build. *)
Lemma poll_unparsable (cfg : config) (s : state) (q : string)
    (b : option string) (m : string) :
  pc s = AwaitStatus q b ->
  step cfg s (Status {| statusCode := 200; body := Unparsable m |})
  = die (SyntaxError m) s.
Proof.
  intros Hp. unfold step. rewrite Hp.
  unfold waitJenkinsJob_resume, getJobStatus_callback.
  rewrite getJobStatus_switch_unparsable. cbv iota beta.
  now destruct s.
Qed.

(** C7.  What the code does on the fatal conditions that do not reach the
    handler of [main] with their message.  A failed trigger (a transport
    error or a missing Location header) is reported, and the timer cleared,
    inside [triggerJenkinsJob], which then calls [reject()] without a
    reason: the [catch] of [main] receives [undefined], reading
    [err.message] throws, the handler reports nothing, only [finally] runs
    and the promise of [main] is rejected.  A status request that ends in an
    error, and a 200 whose body is not JSON, throw inside the callback of
    the HTTP client: the process is killed, the handler is never reached and
    nothing is reported. *)
Theorem C7_failures_miss_the_handler (cfg : config) (pre : list input)
    (t : trigger_response)
    (Hstart : pc (run cfg pre) = AwaitTrigger)
    (Hfail : trigger_failed t = true) :
  let s := run cfg pre in
  let s' := run cfg (pre ++ [Triggered t]) in
  snd (triggerJenkinsJob_callback t s) = Rejected tt /\
  s' = main_catch None (fst (triggerJenkinsJob_callback t s)) /\
  pc s'
  = Exited (Uncaught
              (TypeError "Cannot read properties of undefined (reading 'message')")) /\
  log s' = (log s ++ [ESetFailed (trigger_message t); EError (trigger_error t);
                      EClearTimeout; EClearTimeout])%list /\
  (forall (ins : list input) (q : string) (b : option string) (err : string),
      pc (run cfg ins) = AwaitStatus q b ->
      pc (run cfg (ins ++ [NoStatus err]))
      = Exited (Killed
                  (TypeError
                     "Cannot read properties of undefined (reading 'statusCode')")) /\
      log (run cfg (ins ++ [NoStatus err]))
      = (log (run cfg ins) ++ [EClearTimeout])%list) /\
  (forall (ins : list input) (q : string) (b : option string) (m : string),
      pc (run cfg ins) = AwaitStatus q b ->
      pc (run cfg (ins ++ [Status {| statusCode := 200; body := Unparsable m |}]))
      = Exited (Killed (SyntaxError m)) /\
      log (run cfg (ins ++ [Status {| statusCode := 200; body := Unparsable m |}]))
      = log (run cfg ins)).
Proof.
  cbn zeta. rewrite run_snoc.
  split; [|split; [|split; [|split; [|split]]]].
  - destruct t as [a e|loc]; simpl in *; [reflexivity|now rewrite Hfail].
  - unfold step. rewrite Hstart. unfold main_resume.
    destruct t as [a e|loc]; simpl in *; [reflexivity|now rewrite Hfail].
  - unfold step. rewrite Hstart. unfold main_resume.
    destruct t as [a e|loc]; simpl in *; [reflexivity|now rewrite Hfail].
  - unfold step. rewrite Hstart. unfold main_resume.
    destruct t as [a e|loc]; simpl in *; [|rewrite Hfail; simpl];
      autorewrite with obs; reflexivity.
  - intros ins q b err Hp.
    rewrite run_snoc, (poll_no_response cfg _ q b err Hp). split; reflexivity.
  - intros ins q b m Hp.
    rewrite run_snoc, (poll_unparsable cfg _ q b m Hp). split; reflexivity.
Qed.

(** At a trigger answered without a Location header. *)
Lemma C7_failures_miss_the_handler_witness :
  pc (run sample ([] ++ [Triggered (TriggerResponse None)]))
  = Exited (Uncaught
              (TypeError "Cannot read properties of undefined (reading 'message')")).
Proof.
  exact (proj1 (proj2 (proj2
    (C7_failures_miss_the_handler sample [] (TriggerResponse None)
       eq_refl eq_refl)))).
Defined.

(** * Further properties of the program *)

Lemma posts_app (l l' : list event) :
  posts (l ++ l') = (posts l ++ posts l')%list.
Proof.
  induction l as [|e l IH]; simpl; [reflexivity|].
  destruct e; simpl; now rewrite ?IH.
Qed.

(** ** The callback of a status request (lines 89-123) *)

(** X1.  The outcomes of the callback of [getJobStatus], for a counter
    that JavaScript still counts exactly (below 2^53).  On an error of the
    request the timer is cleared and the promise rejected with the error,
    and then the callback throws a [TypeError], reading [res.statusCode] of
    [undefined].  On a response: a 200 with a body that parses resolves with
    the parsed value and leaves the failure counter alone; a 200 with a
    body that [JSON.parse] refuses throws its [SyntaxError], with the
    promise still pending and the counter as it was; a 502 always
    increments the counter by one and is rejected once, as a
    [BadGatewayError] if the counter was at most at the threshold and with
    the threshold message otherwise (the [reject]s that the missing [break]
    lets run change nothing, so a 502 is never reported as an unknown code);
    any other code is rejected as unknown, with the code in the message,
    and leaves the counter alone.  Only the transport error touches the
    timer, and no outcome touches the log otherwise. *)
Theorem X1_callback_outcomes (s : state) (a : answer)
    (Hexact : 0 <= failureCount s < 2 ^ 53) :
  let n := failureCount s in
  match a with
  | NoResponse err =>
      getJobStatus_callback a s
      = (clearTimeout s, Rejected (JsError err),
         Some (TypeError
                 "Cannot read properties of undefined (reading 'statusCode')"))
  | Response res =>
      (statusCode res = 200 /\
       exists v, body res = Json v /\
         getJobStatus_callback a s = (set_failureCount n s, Resolved v, None)) \/
      (statusCode res = 200 /\
       exists m, body res = Unparsable m /\
         getJobStatus_callback a s
         = (set_failureCount n s, Pending, Some (SyntaxError m))) \/
      (statusCode res = 502 /\ n <= FAILURE_THRESHOLD /\
       getJobStatus_callback a s
       = (set_failureCount (n + 1) s,
          Rejected (BadGatewayError "Wrong http response from host - 502"),
          None)) \/
      (statusCode res = 502 /\ FAILURE_THRESHOLD < n /\
       getJobStatus_callback a s
       = (set_failureCount (n + 1) s,
          Rejected (JenkinsAPIError "Failure Threshold reached, exiting script....."),
          None)) \/
      (statusCode res <> 200 /\ statusCode res <> 502 /\
       getJobStatus_callback a s
       = (set_failureCount n s,
          Rejected (JenkinsAPIError
                      ("Unknown API error code received: "
                         ++ Js.show_number (statusCode res))),
          None))
  end.
Proof.
  cbn zeta. destruct a as [err|[code b]]; [reflexivity|].
  unfold getJobStatus_callback. cbn [statusCode body].
  destruct (Z.eq_dec code 200) as [->|H200].
  - destruct b as [m|v].
    + right; left. split; [reflexivity|]. exists m. split; reflexivity.
    + left. split; [reflexivity|]. exists v. split; reflexivity.
  - destruct (Z.eq_dec code 502) as [->|H502].
    + do 2 right.
      destruct (Z_le_gt_dec (failureCount s) FAILURE_THRESHOLD) as [Hn|Hn].
      * left. split; [reflexivity|]. split; [exact Hn|].
        now rewrite getJobStatus_switch_502_transient.
      * right; left. split; [reflexivity|]. split; [lia|].
        rewrite getJobStatus_switch_502_escalated by lia. reflexivity.
    + do 4 right. split; [exact H200|]. split; [exact H502|].
      unfold getJobStatus_switch; cbn [statusCode body].
      apply Z.eqb_neq in H200, H502. now rewrite H200, H502.
Qed.

(** A request that is reset before the first answer. *)
Lemma X1_callback_outcomes_witness :
  getJobStatus_callback (NoResponse "read ECONNRESET") loaded
  = (clearTimeout loaded, Rejected (JsError "read ECONNRESET"),
     Some (TypeError
             "Cannot read properties of undefined (reading 'statusCode')")).
Proof.
  apply (X1_callback_outcomes loaded (NoResponse "read ECONNRESET")).
  simpl. lia.
Defined.

(** The counter after an answer. *)
Lemma getJobStatus_switch_count (n : Z) (res : response) :
  fst (fst (getJobStatus_switch n res))
  = n + (if statusCode res =? 502 then 1 else 0).
Proof.
  unfold getJobStatus_switch.
  destruct (statusCode res =? 200) eqn:E200.
  - apply Z.eqb_eq in E200. rewrite E200.
    destruct (JSON_parse (body res)); simpl; lia.
  - destruct (statusCode res =? 502); simpl; lia.
Qed.

(** ** The failure counter over a run (lines 101-114) *)

(** A step from a poll: the program waits for another poll, of the same
    queue item, or [main] has settled and the timer is released. *)
Lemma polling_step (cfg : config) (s : state) (i : input) (q : string)
    (b : option string) :
  pc s = AwaitStatus q b ->
  (exists b', pc (step cfg s i) = AwaitStatus q b') \/
  (exists c, pc (step cfg s i) = Exited c /\ timer (step cfg s i) = false).
Proof.
  intros Hp. destruct s as [fc sc jbu tm lg p]; simpl in Hp; subst p.
  destruct i as [t|res|err|]; simpl.
  - left. now exists b.
  - unfold_program; simpl.
    destruct (getJobStatus_switch fc res) as [[fc' [|[| |d]|e]] [t|]]; simpl.
    all: split_ifs; simpl.
    all: try (left; eexists; reflexivity).
    all: right; eexists; split; reflexivity.
  - right. unfold_program; simpl. eexists; split; reflexivity.
  - left. exists b. unfold_program; simpl. now destruct tm.
Qed.

Lemma polling_steps_back (cfg : config) (ins : list input) (s : state)
    (q : string) (b : option string) (i : input) :
  pc s = AwaitStatus q b ->
  polling (steps cfg (step cfg s i) ins) ->
  exists b', pc (step cfg s i) = AwaitStatus q b'.
Proof.
  intros Hp (q' & b' & Hw).
  destruct (polling_step cfg s i q b Hp) as [H|(c & Hc & Ht)]; [exact H|].
  rewrite (exited_steps cfg ins _ c Hc Ht) in Hw. congruence.
Qed.

(** One step: the counter goes up by one on a 502 and is left alone by
    anything else. *)
Lemma step_failureCount (cfg : config) (s : state) (i : input) (q : string)
    (b : option string) :
  pc s = AwaitStatus q b ->
  failureCount (step cfg s i)
  = failureCount s + (if is_bad_gateway i then 1 else 0).
Proof.
  intros Hp. destruct s as [fc sc jbu tm lg p]; simpl in Hp; subst p.
  destruct i as [t|res|err|]; simpl; try lia.
  - pose proof (getJobStatus_switch_count fc res) as Hc.
    unfold_program; simpl.
    destruct (getJobStatus_switch fc res) as [[fc' [|[| |d]|e]] [t|]]; simpl in *.
    all: split_ifs; simpl; exact Hc.
  - unfold_program; simpl. destruct tm; simpl; lia.
Qed.

Lemma steps_failureCount (cfg : config) (ins : list input) :
  forall (s : state) (q : string) (b : option string),
    pc s = AwaitStatus q b ->
    polling (steps cfg s ins) ->
    failureCount (steps cfg s ins) = failureCount s + count is_bad_gateway ins.
Proof.
  unfold count.
  induction ins as [|i ins IH]; intros s q b Hp Hw.
  - simpl. lia.
  - rewrite steps_cons in *.
    destruct (polling_steps_back cfg ins s q b i Hp Hw) as [b' Hp'].
    rewrite (IH _ q b' Hp' Hw), (step_failureCount cfg s i q b Hp).
    simpl filter. destruct (is_bad_gateway i); simpl length; lia.
Qed.

Lemma main_failureCount (cfg : config) : failureCount (main cfg) = 0.
Proof. unfold main. now split_ifs. Qed.

(** Answering the trigger does not touch the counter. *)
Lemma trigger_failureCount (cfg : config) (s : state) (i : input) :
  pc s = AwaitTrigger -> failureCount (step cfg s i) = failureCount s.
Proof.
  intros Hp. destruct s as [fc sc jbu tm lg p]; simpl in Hp; subst p.
  destruct i as [[a e|[loc|]]|r|err|]; simpl; try reflexivity.
  all: unfold_program; simpl; now split_ifs.
Qed.

(** A 502 that finds the counter above the threshold ends the run. *)
Lemma bad_gateway_above_threshold_exits (cfg : config) (s : state)
    (q : string) (b : option string) (body : raw_body) :
  pc s = AwaitStatus q b ->
  FAILURE_THRESHOLD < failureCount s ->
  ~ polling (step cfg s (Status {| statusCode := 502; body := body |})).
Proof.
  intros Hp Hf (q' & b' & Hw).
  destruct s as [fc sc jbu tm lg p]; simpl in *; subst p.
  unfold step, waitJenkinsJob_resume, getJobStatus_callback in Hw;
    cbn [pc failureCount] in Hw.
  rewrite getJobStatus_switch_502_escalated in Hw by exact Hf.
  destruct (negb (Js.truthy_opt b)); discriminate Hw.
Qed.

(** While a poll is awaited the counter is at most one above the
    threshold. *)
Lemma polling_failureCount_bound (cfg : config) (ins : list input) :
  polling (run cfg ins) ->
  failureCount (run cfg ins) <= FAILURE_THRESHOLD + 1.
Proof.
  induction ins as [|i ins IH] using rev_ind.
  - intros _. change (run cfg []) with (main cfg).
    rewrite main_failureCount. unfold FAILURE_THRESHOLD. lia.
  - intros Hw. rewrite run_snoc in *.
    pose proof (inv_run cfg ins) as (_ & _ & I).
    destruct (pc (run cfg ins)) as [|q b|c] eqn:Hp.
    + rewrite (trigger_failureCount cfg _ i Hp).
      destruct I as (_ & _ & -> & _). unfold FAILURE_THRESHOLD. lia.
    + assert (Hprev : failureCount (run cfg ins) <= FAILURE_THRESHOLD + 1)
        by (apply IH; now exists q, b).
      rewrite (step_failureCount cfg _ i q b Hp).
      destruct i as [t|[code body]|err|]; cbn [is_bad_gateway statusCode];
        [lia| |lia|lia].
      destruct (code =? 502) eqn:E502; [|lia].
      apply Z.eqb_eq in E502. subst code.
      destruct (Z_le_gt_dec (failureCount (run cfg ins)) FAILURE_THRESHOLD)
        as [Hle|Hgt]; [lia|].
      exfalso.
      apply (bad_gateway_above_threshold_exits cfg _ q b body Hp); [lia|exact Hw].
    + destruct I as (Ht & _). destruct Hw as (q' & b' & Hw).
      rewrite (exited_step cfg _ c i Hp Ht) in Hw. congruence.
Qed.

(** X2.  The failure counter counts every 502 of the run, whether or not
    other answers come in between: while a poll is still awaited after the
    inputs [more], the counter has gone up by the number of 502 answers
    among them, and it is at most 11.  So a run survives at most eleven 502
    answers in all, not in a row. *)
Theorem X2_failure_counter_accumulates (cfg : config) (ins more : list input)
    (Hbefore : polling (run cfg ins))
    (Hafter : polling (run cfg (ins ++ more))) :
  failureCount (run cfg (ins ++ more))
  = failureCount (run cfg ins) + count is_bad_gateway more /\
  failureCount (run cfg (ins ++ more)) <= FAILURE_THRESHOLD + 1 /\
  count is_bad_gateway more <= FAILURE_THRESHOLD + 1.
Proof.
  destruct Hbefore as (q & b & Hp).
  pose proof (polling_failureCount_bound cfg (ins ++ more) Hafter) as Hb.
  rewrite run_app in *.
  pose proof (steps_failureCount cfg more _ q b Hp Hafter) as E.
  pose proof (inv_run cfg ins) as (H0 & _).
  repeat split; [exact E | exact Hb | lia].
Qed.

(** With 200s between the 502s. *)
Lemma X2_failure_counter_accumulates_witness :
  failureCount
    (run sample (building ++ [bad_gateway; ok (build None); bad_gateway]))
  = failureCount (run sample building) + 2.
Proof.
  exact (proj1 (X2_failure_counter_accumulates sample building
                  [bad_gateway; ok (build None); bad_gateway]
                  (ex_intro _ _ (ex_intro _ _ eq_refl))
                  (ex_intro _ _ (ex_intro _ _ eq_refl)))).
Defined.

(** ** The success counter and the polls of a build (lines 161-193) *)

Lemma getJobStatus_switch_rejected (n n' : Z) (res : response) (e : error)
    (t : option error) :
  getJobStatus_switch n res = (n', Rejected e, t) ->
  (statusCode res =? 200) = false.
Proof.
  unfold getJobStatus_switch.
  destruct (statusCode res =? 200); [|reflexivity].
  destruct (JSON_parse (body res)); simpl; discriminate.
Qed.

(** One step while a build is awaited, after which a poll is still awaited:
    it is the poll of the same build, one more request for it was made or
    none, and the success counter has gone up by one exactly if the answer
    was a success. *)
Lemma build_polling_step (cfg : config) (s : state) (i : input) (q u : string) :
  pc s = AwaitStatus q (Some u) ->
  Js.truthy u = true ->
  polling (step cfg s i) ->
  pc (step cfg s i) = AwaitStatus q (Some u) /\
  successCount (step cfg s i)
  = successCount s + (if is_success i then 1 else 0) /\
  exists k, polls (log (step cfg s i))
            = (polls (log s) ++ repeat (request_url u) k)%list.
Proof.
  intros Hp Hu (q' & b' & Hw). revert Hw.
  assert (Hsame : exists k, polls (log s)
                            = (polls (log s) ++ repeat (request_url u) k)%list)
    by (exists 0%nat; now rewrite app_nil_r).
  assert (Hturn : forall s', polls (log s') = polls (log s) ->
            exists k, polls (log (sleep_continue q (Some u) s'))
                      = (polls (log s) ++ repeat (request_url u) k)%list).
  { intros s' E. exists 1%nat. unfold sleep_continue, poll, getJobStatus; simpl.
    rewrite Hu; simpl. autorewrite with obs; simpl. now rewrite E. }
  unfold step. rewrite Hp.
  destruct i as [t|res|err|].
  - intros _. rewrite Hp. repeat split; [simpl; lia | exact Hsame].
  - unfold waitJenkinsJob_resume, getJobStatus_callback.
    pose proof (fun n' v t => getJobStatus_switch_resolved
                               (failureCount s) n' res v t) as Hr.
    pose proof (fun n' e t => getJobStatus_switch_rejected
                               (failureCount s) n' res e t) as Hj.
    pose proof (getJobStatus_switch_settles (failureCount s) res) as Hn.
    destruct (getJobStatus_switch (failureCount s) res) as [[n pr] [t|]];
      [discriminate|].
    simpl Js.truthy_opt. rewrite Hu. cbn [negb].
    destruct pr as [|v|e]; simpl in Hn.
    + now elim Hn.
    + destruct (Hr _ _ _ eq_refl) as (_ & H200 & Hbody & _).
      cbn [is_success]. rewrite H200, <- Hbody. cbn [Z.eqb Pos.eqb andb].
      unfold try_block.
      destruct v as [| |d];
        [intros _; repeat split; [simpl; lia | now apply Hturn]..|].
      destruct (Js.eq_literal (result d) "SUCCESS").
      * destruct (successCount (set_failureCount n s) >=? SUCCESS_THRESHOLD);
          [discriminate|].
        intros _. repeat split. now apply Hturn.
      * destruct (_ || _); [discriminate|].
        intros _. repeat split; [simpl; lia | now apply Hturn].
    + cbn [is_success]. rewrite (Hj _ _ _ eq_refl). cbn [andb].
      unfold try_catch. destruct (instanceof_BadGatewayError e); [|discriminate].
      intros _. repeat split; [simpl; lia | now apply Hturn].
  - discriminate.
  - intros _. unfold timer_callback.
    destruct (timer s); simpl; rewrite ?Hp; autorewrite with obs; simpl;
      repeat split; try lia; exact Hsame.
Qed.

Lemma build_polling_steps (cfg : config) (q u : string) (ins : list input) :
  forall s : state,
    pc s = AwaitStatus q (Some u) ->
    Js.truthy u = true ->
    polling (steps cfg s ins) ->
    pc (steps cfg s ins) = AwaitStatus q (Some u) /\
    successCount (steps cfg s ins) = successCount s + count is_success ins /\
    exists k, polls (log (steps cfg s ins))
              = (polls (log s) ++ repeat (request_url u) k)%list.
Proof.
  unfold count.
  induction ins as [|i ins IH]; intros s Hp Hu Hw.
  - simpl. repeat split; [exact Hp | lia |].
    exists 0%nat. now rewrite app_nil_r.
  - rewrite steps_cons in *.
    assert (Hw1 : polling (step cfg s i)).
    { destruct (polling_steps_back cfg ins s q (Some u) i Hp Hw) as [b' H].
      now exists q, b'. }
    destruct (build_polling_step cfg s i q u Hp Hu Hw1) as (Hp1 & Hc1 & k1 & Hk1).
    destruct (IH _ Hp1 Hu Hw) as (Hp2 & Hc2 & k2 & Hk2).
    split; [exact Hp2|]. split.
    + rewrite Hc2, Hc1. simpl filter.
      destruct (is_success i); simpl length; lia.
    + exists (k1 + k2)%nat. now rewrite Hk2, Hk1, repeat_app, app_assoc.
Qed.

(** X3.  The success counter counts every success read since the build was
    assigned, in a row or not: while a poll is still awaited after the
    inputs [more], the counter has gone up by the number of successes among
    them, and that number is at most 3. *)
Theorem X3_success_counter_accumulates (cfg : config) (ins more : list input)
    (q u : string)
    (Hbuild : pc (run cfg ins) = AwaitStatus q (Some u))
    (Hafter : polling (run cfg (ins ++ more))) :
  successCount (run cfg (ins ++ more))
  = successCount (run cfg ins) + count is_success more /\
  successCount (run cfg ins) + count is_success more <= SUCCESS_THRESHOLD.
Proof.
  pose proof (awaited_build_truthy cfg ins q u Hbuild) as Hu.
  pose proof (inv_run cfg (ins ++ more)) as (_ & [_ Hle] & _).
  rewrite run_app in *.
  destruct (build_polling_steps cfg q u more _ Hbuild Hu Hafter) as (_ & E & _).
  split; [exact E|]. now rewrite <- E.
Qed.

(** Three successes with other documents in between. *)
Lemma X3_success_counter_accumulates_witness :
  successCount (run sample (building ++ removelast interrupted_successes))
  = successCount (run sample building) + 3.
Proof.
  exact (proj1 (X3_success_counter_accumulates sample building
                  (removelast interrupted_successes)
                  "https://ci/queue/5/" "https://ci/build/5/" eq_refl
                  (ex_intro _ _ (ex_intro _ _ eq_refl)))).
Defined.

(** X4.  Once a build is awaited the machine never polls the queue item
    again nor any other build: while a poll is still awaited, it is the poll
    of that build, and every status request made in between went to its
    URL. *)
Theorem X4_build_polling_is_sticky (cfg : config) (ins more : list input)
    (q u : string)
    (Hbuild : pc (run cfg ins) = AwaitStatus q (Some u))
    (Hafter : polling (run cfg (ins ++ more))) :
  pc (run cfg (ins ++ more)) = AwaitStatus q (Some u) /\
  exists k : nat,
    polls (log (run cfg (ins ++ more)))
    = (polls (log (run cfg ins)) ++ repeat (request_url u) k)%list.
Proof.
  pose proof (awaited_build_truthy cfg ins q u Hbuild) as Hu.
  rewrite run_app in *.
  destruct (build_polling_steps cfg q u more _ Hbuild Hu Hafter) as (P & _ & K).
  split; [exact P | exact K].
Qed.

(** Documents that name other builds do not move the polling. *)
Lemma X4_build_polling_is_sticky_witness :
  pc (run sample (building ++ [ok (assigned "https://ci/build/6/");
                               bad_gateway; ok (build None)]))
  = AwaitStatus "https://ci/queue/5/" (Some "https://ci/build/5/").
Proof.
  exact (proj1 (X4_build_polling_is_sticky sample building
                  [ok (assigned "https://ci/build/6/"); bad_gateway;
                   ok (build None)]
                  "https://ci/queue/5/" "https://ci/build/5/" eq_refl
                  (ex_intro _ _ (ex_intro _ _ eq_refl)))).
Defined.

(** ** The polls of the queue (lines 133-158) *)

(** Lines 152-157: a queue document that neither cancels nor assigns. *)
Lemma poll_queue_waiting (cfg : config) (s : state) (q : string) (d : document) :
  pc s = AwaitStatus q None ->
  still_queued d = true ->
  step cfg s (ok d) = sleep_continue q None s.
Proof.
  intros Hp Hd. unfold still_queued in Hd.
  apply andb_prop in Hd. destruct Hd as [Hc He].
  apply negb_true_iff in Hc.
  destruct (executable_url d) eqn:Hx; [discriminate|].
  destruct s as [fc sc jbu tm lg p]; simpl in *; subst p.
  unfold step, waitJenkinsJob_resume, queue_block; simpl.
  now rewrite Hc, Hx.
Qed.

Lemma queue_waits (cfg : config) (q : string) (ds : list document) :
  forall s : state,
    pc s = AwaitStatus q None ->
    forallb still_queued ds = true ->
    let s' := steps cfg s (map ok ds) in
    pc s' = AwaitStatus q None /\
    log s' = (log s ++ turns (length ds) q)%list /\
    failureCount s' = failureCount s /\
    successCount s' = successCount s /\
    jenkinsBuildUrl s' = jenkinsBuildUrl s /\
    timer s' = timer s.
Proof.
  induction ds as [|d ds IH]; intros s Hp Hd; cbn zeta.
  - simpl. rewrite app_nil_r. repeat split; assumption.
  - simpl in Hd. apply andb_prop in Hd. destruct Hd as [Hd Hds].
    cbn [map length turns]. rewrite steps_cons.
    rewrite (poll_queue_waiting cfg s q d Hp Hd).
    destruct (IH (sleep_continue q None s) eq_refl Hds)
      as (A & B & C & D & E & F).
    rewrite A, B, C, D, E, F.
    unfold sleep_continue, poll, getJobStatus; simpl.
    autorewrite with obs; simpl.
    repeat split.
Qed.

(** X5.  The queue is polled without a bound of its own: however many
    documents arrive that neither cancel the job nor carry a truthy
    executable URL (an [executable] without [url], or with an empty one,
    included), each makes the machine sleep 10 s and poll the queue item
    again; nothing is reported, published or counted. *)
Theorem X5_queue_polled_until_assigned (cfg : config) (ins : list input)
    (q : string) (ds : list document)
    (Hqueue : pc (run cfg ins) = AwaitStatus q None)
    (Hds : forallb still_queued ds = true) :
  let s := run cfg ins in
  let s' := run cfg (ins ++ map ok ds) in
  pc s' = AwaitStatus q None /\
  log s' = (log s ++ turns (length ds) q)%list /\
  failureCount s' = 0 /\ successCount s' = 0 /\
  published (log s') = [] /\
  failures (log s') = failures (log s).
Proof.
  cbn zeta. rewrite run_app.
  destruct (queue_waits cfg q ds _ Hqueue Hds) as (A & B & _).
  pose proof (inv_run cfg (ins ++ map ok ds)) as (_ & _ & I).
  rewrite run_app, A in I. destruct I as (P & _ & F & S).
  repeat split; try assumption.
  rewrite B, failures_app.
  assert (T : forall n, failures (turns n q) = [])
    by (induction n; simpl; auto).
  now rewrite T, app_nil_r.
Qed.

(** With an [executable] that has no [url], and one whose [url] is empty. *)
Lemma X5_queue_polled_until_assigned_witness :
  pc (run sample (started ++ map ok stalled_documents))
  = AwaitStatus "https://ci/queue/5/" None.
Proof.
  exact (proj1 (X5_queue_polled_until_assigned sample started
                  "https://ci/queue/5/" stalled_documents eq_refl eq_refl)).
Defined.

(** X6.  Cancellation comes first: a queue document with [cancelled] set
    ends the run with the failure "Job '<job_name>' was cancelled.", also
    when it carries an executable URL; nothing is published, no sleep and no
    further request follow, and the timer is released. *)
Theorem X6_cancellation_first (cfg : config) (ins : list input) (q : string)
    (d : document)
    (Hqueue : pc (run cfg ins) = AwaitStatus q None)
    (Hd : cancelled d = true) :
  let s := run cfg ins in
  let s' := run cfg (ins ++ [ok d]) in
  log s' = (log s ++ [ESetFailed ("Job '" ++ input_job_name cfg ++ "' was cancelled.");
                      EError ("Job '" ++ input_job_name cfg ++ "' was cancelled.");
                      EClearTimeout])%list /\
  pc s' = Exited Normal /\
  timer s' = false /\
  published (log s') = [] /\
  succeeded s' = false.
Proof.
  cbn zeta. rewrite run_snoc.
  pose proof (inv_run cfg ins) as (_ & _ & I). rewrite Hqueue in I.
  destruct I as (P & _).
  destruct (run cfg ins) as [fc sc jbu tm lg p]; simpl in *; subst p.
  unfold step, waitJenkinsJob_resume, queue_block; simpl. rewrite Hd.
  unfold succeeded; unfold_program; simpl.
  autorewrite with obs; simpl. rewrite P; simpl.
  repeat split. now destruct (failures lg).
Qed.

(** A cancelled document that names a build. *)
Lemma X6_cancellation_first_witness :
  published (log (run sample (started ++ [ok cancelled_assigned]))) = [].
Proof.
  exact (proj1 (proj2 (proj2 (proj2
    (X6_cancellation_first sample started "https://ci/queue/5/"
       cancelled_assigned eq_refl eq_refl))))).
Defined.

(** X7.  A queue poll answered 200 with a falsy document.  For [null],
    reading [cancelled] of it throws, outside the [try]: unlike on a build
    poll the run ends as failed, with the message of the [TypeError], and
    without a sleep or a further request.  For a falsy document that is not
    [null] ([false], [0] or the empty string) the properties read as
    [undefined]: the machine sleeps 10 seconds and polls the queue item
    again, as for a document without an executable. *)
Theorem X7_falsy_queue_document (cfg : config) (ins : list input)
    (q : string)
    (Hqueue : pc (run cfg ins) = AwaitStatus q None) :
  let s := run cfg ins in
  let null := run cfg (ins ++ [Status {| statusCode := 200; body := Json Null |}]) in
  let falsy := run cfg (ins ++ [Status {| statusCode := 200; body := Json Falsy |}]) in
  (log null
   = (log s ++ [ESetFailed "Cannot read properties of null (reading 'cancelled')";
                EError "Cannot read properties of null (reading 'cancelled')";
                EClearTimeout])%list /\
   pc null = Exited Normal /\
   succeeded null = false /\
   sleeps (log null) = sleeps (log s) /\
   polls (log null) = polls (log s)) /\
  (log falsy = (log s ++ [ESleep 10; EGet (request_url q)])%list /\
   pc falsy = AwaitStatus q None /\
   failureCount falsy = failureCount s /\
   successCount falsy = successCount s /\
   jenkinsBuildUrl falsy = jenkinsBuildUrl s /\
   timer falsy = timer s).
Proof.
  cbn zeta. rewrite !run_snoc.
  destruct (run cfg ins) as [fc sc jbu tm lg p]; simpl in *; subst p.
  unfold step, waitJenkinsJob_resume, getJobStatus_callback; simpl.
  unfold succeeded, queue_block; unfold_program; simpl.
  autorewrite with obs; simpl.
  split; [|repeat split].
  split; [reflexivity|]. split; [reflexivity|].
  split; [now destruct (failures lg)|]. split; reflexivity.
Qed.

(** On the first poll of the queue. *)
Lemma X7_falsy_queue_document_witness :
  pc (run sample
        (started ++ [Status {| statusCode := 200; body := Json Falsy |}]))
  = AwaitStatus "https://ci/queue/5/" None.
Proof.
  exact (proj1 (proj2 (proj2
    (X7_falsy_queue_document sample started "https://ci/queue/5/" eq_refl)))).
Defined.

(** ** How a run ends (lines 181-187, 194-205, 229-234) *)

(** X8.  A build document whose [result] is "FAILURE" or "ABORTED" ends the
    run as failed; the message names the build by its [fullDisplayName]
    ("undefined" when the document has none) and by the published URL, and
    carries the prefix of line 203. *)
Theorem X8_failed_build_reported (cfg : config) (ins : list input)
    (q u : string) (d : document)
    (Hbuild : pc (run cfg ins) = AwaitStatus q (Some u))
    (Hd : result d = Some "FAILURE" \/ result d = Some "ABORTED") :
  let s := run cfg ins in
  let s' := run cfg (ins ++ [ok d]) in
  let text := "Prod-to-env sync job failed,  Job '"
                ++ Js.show (fullDisplayName d) ++ "' - " ++ u ++ " failed." in
  log s' = (log s ++ [ESetFailed text; EError text; EClearTimeout])%list /\
  published (log s) = [u] /\
  pc s' = Exited Normal /\
  succeeded s' = false.
Proof.
  cbn zeta. rewrite run_snoc.
  pose proof (awaited_build_truthy cfg ins q u Hbuild) as Hu.
  pose proof (inv_run cfg ins) as (_ & _ & I). rewrite Hbuild in I.
  destruct I as (_ & Hj & Hpub).
  rewrite (poll_build_failed cfg _ q u Hbuild Hu d)
    by (destruct Hd as [-> | ->]; reflexivity).
  rewrite succeeded_main_catch.
  destruct (main_catch_reports
              (JsError ("Prod-to-env sync job failed,  " ++
                        "Job '" ++ Js.show (fullDisplayName d) ++ "' - "
                        ++ Js.show (jenkinsBuildUrl (run cfg ins)) ++ " failed."))
              (run cfg ins)) as (L & _ & P).
  rewrite L, P, Hj. simpl. repeat split. exact Hpub.
Qed.

(** An aborted build without a display name. *)
Lemma X8_failed_build_reported_witness :
  log (run sample (building ++ [ok aborted_build]))
  = (log (run sample building)
       ++ [ESetFailed "Prod-to-env sync job failed,  Job 'undefined' - https://ci/build/5/ failed.";
           EError "Prod-to-env sync job failed,  Job 'undefined' - https://ci/build/5/ failed.";
           EClearTimeout])%list.
Proof.
  exact (proj1 (X8_failed_build_reported sample building
                  "https://ci/queue/5/" "https://ci/build/5/" aborted_build
                  eq_refl (or_intror eq_refl))).
Defined.

(** What leaves the [catch] of line 194 carries the prefix of line 203. *)
Lemma try_catch_exit_wrapped (q : string) (b : option string) (e : error)
    (s : state) (c : completion) :
  pc (try_catch q b e s) = Exited c ->
  try_catch q b e s
  = main_catch (Some (JsError ("Prod-to-env sync job failed,  " ++ message e))) s.
Proof.
  unfold try_catch.
  destruct (instanceof_BadGatewayError e); [discriminate|reflexivity].
Qed.

Lemma try_block_exit_wrapped (q : string) (b : option string)
    (buildData : value) (s : state) (c : completion) :
  pc (try_block q b buildData s) = Exited c ->
  (exists m, try_block q b buildData s
             = main_catch
                 (Some (JsError ("Prod-to-env sync job failed,  " ++ m))) s) \/
  try_block q b buildData s = main_finally Normal s.
Proof.
  unfold try_block. destruct buildData as [| |d]; [discriminate..|].
  destruct (Js.eq_literal (result d) "SUCCESS").
  - destruct (successCount s >=? SUCCESS_THRESHOLD); [|discriminate].
    intros _. now right.
  - destruct (_ || _); [|discriminate].
    intros H. left. eexists. exact (try_catch_exit_wrapped _ _ _ _ _ H).
Qed.

(** X9.  How a run ends after the build is assigned.  Either [main]
    settles: by the [break] of the loop, which reports nothing, or by a
    failure, and then the failure is reported with the prefix
    "Prod-to-env sync job failed,  " (a failed build, an unknown status code
    and the failure threshold alike).  Or the callback of the request
    throws and the process is killed with nothing reported: on a request
    that ends in an error, after the timer is cleared, and on a 200 whose
    body [JSON.parse] refuses. *)
Theorem X9_build_exits (cfg : config) (ins : list input)
    (q u : string) (i : input) (c : completion)
    (Hbuild : pc (run cfg ins) = AwaitStatus q (Some u))
    (Hexit : pc (run cfg (ins ++ [i])) = Exited c) :
  let s := run cfg ins in
  let s' := run cfg (ins ++ [i]) in
  (c = Normal /\
   (log s' = (log s ++ [EClearTimeout])%list \/
    exists m : string,
      log s' = (log s ++ [ESetFailed ("Prod-to-env sync job failed,  " ++ m);
                          EError ("Prod-to-env sync job failed,  " ++ m);
                          EClearTimeout])%list)) \/
  (exists err : string,
      i = NoStatus err /\
      c = Killed (TypeError
                    "Cannot read properties of undefined (reading 'statusCode')") /\
      log s' = (log s ++ [EClearTimeout])%list) \/
  (exists m : string,
      i = Status {| statusCode := 200; body := Unparsable m |} /\
      c = Killed (SyntaxError m) /\
      log s' = log s).
Proof.
  cbn zeta. rewrite run_snoc in *.
  pose proof (awaited_build_truthy cfg ins q u Hbuild) as Hu.
  revert Hexit. generalize (run cfg ins) Hbuild. clear Hbuild.
  intros s Hp. unfold step. rewrite Hp.
  destruct i as [t|res|err|].
  - congruence.
  - unfold waitJenkinsJob_resume, getJobStatus_callback.
    pose proof (getJobStatus_switch_settles (failureCount s) res) as Hn.
    pose proof (fun n' p e => getJobStatus_switch_thrown
                                (failureCount s) n' res p e) as Ht.
    destruct (getJobStatus_switch (failureCount s) res) as [[n pr] [e|]].
    + destruct (Ht _ _ _ eq_refl) as (-> & -> & H200 & m & Hb & ->).
      intros H. do 2 right. exists m.
      split; [destruct res as [code b]; simpl in *; now subst|].
      split; [simpl in H; congruence | reflexivity].
    + simpl Js.truthy_opt. rewrite Hu. cbn [negb].
      destruct pr as [|buildData|e]; simpl in Hn; [now elim Hn| |].
      * intros H. left.
        destruct (try_block_exit_wrapped _ _ _ _ _ H) as [[m E]|E];
          rewrite E in H |- *.
        -- destruct (main_catch_reports
                       (JsError ("Prod-to-env sync job failed,  " ++ m))
                       (set_failureCount n s)) as (L & _ & P).
           rewrite P in H. split; [congruence|].
           right. exists m. exact L.
        -- split; [simpl in H; congruence|]. left. reflexivity.
      * intros H. left. rewrite (try_catch_exit_wrapped _ _ _ _ _ H) in H |- *.
        destruct (main_catch_reports
                    (JsError ("Prod-to-env sync job failed,  " ++ message e))
                    (set_failureCount n s)) as (L & _ & P).
        rewrite P in H. split; [congruence|].
        right. exists (message e). exact L.
  - intros H. right; left. exists err.
    split; [reflexivity|]. split; [simpl in H; congruence | reflexivity].
  - unfold timer_callback. destruct (timer s); simpl; congruence.
Qed.

(** A connection reset while the build is polled. *)
Lemma X9_build_exits_witness :
  let i := NoStatus "read ECONNRESET" in
  let c :=
    Killed (TypeError
              "Cannot read properties of undefined (reading 'statusCode')") in
  let s := run sample building in
  let s' := run sample (building ++ [i]) in
  (c = Normal /\
   (log s' = (log s ++ [EClearTimeout])%list \/
    exists m : string,
      log s' = (log s ++ [ESetFailed ("Prod-to-env sync job failed,  " ++ m);
                          EError ("Prod-to-env sync job failed,  " ++ m);
                          EClearTimeout])%list)) \/
  (exists err : string,
      i = NoStatus err /\
      c = Killed (TypeError
                    "Cannot read properties of undefined (reading 'statusCode')") /\
      log s' = (log s ++ [EClearTimeout])%list) \/
  (exists m : string,
      i = Status {| statusCode := 200; body := Unparsable m |} /\
      c = Killed (SyntaxError m) /\
      log s' = log s).
Proof.
  exact (X9_build_exits sample building
           "https://ci/queue/5/" "https://ci/build/5/"
           (NoStatus "read ECONNRESET")
           (Killed (TypeError
                      "Cannot read properties of undefined (reading 'statusCode')"))
           eq_refl eq_refl).
Defined.

(** X10.  Once [main] has settled nothing happens any more: no answer and no
    expiry of the deadline changes the state, so nothing is requested,
    reported or retried after the exit. *)
Theorem X10_exit_is_final (cfg : config) (ins more : list input)
    (c : completion)
    (Hexit : pc (run cfg ins) = Exited c) :
  run cfg (ins ++ more) = run cfg ins.
Proof.
  rewrite run_app.
  pose proof (inv_run cfg ins) as (_ & _ & I). rewrite Hexit in I.
  destruct I as (Ht & _).
  exact (exited_steps cfg more _ c Hexit Ht).
Qed.

(** After a cancelled run: a late deadline and a late answer. *)
Lemma X10_exit_is_final_witness :
  run sample ((started ++ [ok cancelled_assigned])
                ++ [Timeout; ok (assigned "https://ci/build/5/")])
  = run sample (started ++ [ok cancelled_assigned]).
Proof.
  exact (X10_exit_is_final sample (started ++ [ok cancelled_assigned])
           [Timeout; ok (assigned "https://ci/build/5/")] Normal eq_refl).
Defined.

(** ** The deadline timer (lines 33-36, 60, 69, 93, 233) *)

(** Nothing arms the timer again. *)
Lemma timer_released_step (cfg : config) (s : state) (i : input) :
  timer s = false -> timer (step cfg s i) = false.
Proof.
  destruct s as [fc sc jbu tm lg p]; simpl. intros ->.
  destruct i as [[a e|[loc|]]|res|err|]; destruct p as [|q b|c]; simpl;
    try reflexivity.
  all: unfold_program; simpl.
  all: try (destruct (getJobStatus_switch fc res) as [[fc' [|[| |d]|e]] [t|]]; simpl).
  all: split_ifs; reflexivity.
Qed.

Lemma timer_released_steps (cfg : config) (ins : list input) (s : state) :
  timer s = false -> timer (steps cfg s ins) = false.
Proof.
  revert s. induction ins as [|i ins IH]; intros s H; [exact H|].
  rewrite steps_cons. apply IH, timer_released_step, H.
Qed.

Lemma timer_after_timeout (cfg : config) (s : state) :
  timer (step cfg s Timeout) = false.
Proof.
  unfold step, timer_callback. destruct (timer s) eqn:E; [reflexivity|exact E].
Qed.

(** X11.  The deadline is reported at most once: after one expiry, whatever
    happens next, a further expiry changes nothing. *)
Theorem X11_deadline_fires_once (cfg : config) (ins more : list input) :
  run cfg (ins ++ Timeout :: more ++ [Timeout])
  = run cfg (ins ++ Timeout :: more).
Proof.
  change (Timeout :: more ++ [Timeout]) with ((Timeout :: more) ++ [Timeout])%list.
  rewrite app_assoc, run_snoc.
  assert (T : timer (run cfg (ins ++ Timeout :: more)) = false).
  { rewrite run_app, steps_cons.
    apply timer_released_steps, timer_after_timeout. }
  unfold step, timer_callback. now rewrite T.
Qed.

(** ** The start of [main] (lines 211-219) *)

(** X12.  A [parameter] input that is not empty and does not parse ends the
    run before the trigger: the parse error is reported, the timer is
    released, and no request at all is made, whatever arrives later. *)
Theorem X12_unparsable_parameter (cfg : config) (ins : list input) (m : string)
    (Hgiven : Js.truthy (input_parameter cfg) = true)
    (Herror : parameter_syntax_error cfg = Some m) :
  log (run cfg ins) = [ESetFailed m; EError m; EClearTimeout] /\
  pc (run cfg ins) = Exited Normal /\
  timer (run cfg ins) = false /\
  posts (log (run cfg ins)) = [] /\
  polls (log (run cfg ins)) = [].
Proof.
  assert (E : main cfg = main_catch (Some (SyntaxError m)) loaded)
    by (unfold main; now rewrite Hgiven, Herror).
  unfold run. rewrite (exited_steps cfg ins (main cfg) Normal);
    rewrite E; repeat split.
Qed.

(** A parameter cut short after its first brace. *)
Lemma X12_unparsable_parameter_witness :
  log (run unparsable started)
  = [ESetFailed "Unexpected end of JSON input";
     EError "Unexpected end of JSON input"; EClearTimeout].
Proof.
  exact (proj1 (X12_unparsable_parameter unparsable started
                  "Unexpected end of JSON input" eq_refl eq_refl)).
Defined.

(** The trigger is never sent again. *)
Lemma step_posts (cfg : config) (s : state) (i : input) :
  posts (log (step cfg s i)) = posts (log s).
Proof.
  destruct s as [fc sc jbu tm lg p].
  destruct i as [[a e|[loc|]]|res|err|]; destruct p as [|q b|c]; simpl;
    try reflexivity.
  all: unfold_program; simpl.
  all: try (destruct (getJobStatus_switch fc res) as [[fc' [|[| |d]|e]] [t|]]; simpl).
  all: split_ifs; simpl; rewrite ?posts_app; simpl; now rewrite ?app_nil_r.
Qed.

(** X13.  One attempt per run: the trigger request is sent once, to
    [<url>/job/<job_name>/buildWithParameters], at the start, and never
    again, whatever the answers.  It is not sent at all when the parameter
    is given and [JSON.parse] (line 215) or [params.toString()] (line 216,
    on a parameter that parses to [null]) throws; in the second case the
    run is the report of that [TypeError] and nothing else. *)
Theorem X13_one_trigger (cfg : config) (ins : list input) :
  posts (log (run cfg ins))
  = (if Js.truthy (input_parameter cfg)
     then match parameter_syntax_error cfg, parameter_toString_error cfg with
          | None, None => [input_url cfg ++ "/job/" ++ input_job_name cfg
                             ++ "/buildWithParameters"]
          | _, _ => []
          end
     else [input_url cfg ++ "/job/" ++ input_job_name cfg
             ++ "/buildWithParameters"]) /\
  (forall m : string,
      Js.truthy (input_parameter cfg) = true ->
      parameter_syntax_error cfg = None ->
      parameter_toString_error cfg = Some m ->
      log (run cfg ins) = [ESetFailed m; EError m; EClearTimeout] /\
      pc (run cfg ins) = Exited Normal).
Proof.
  split.
  - assert (S : posts (log (run cfg ins)) = posts (log (main cfg))).
    { induction ins as [|i ins IH] using rev_ind; [reflexivity|].
      now rewrite run_snoc, step_posts. }
    rewrite S. unfold main.
    destruct (Js.truthy (input_parameter cfg)); [|reflexivity].
    destruct (parameter_syntax_error cfg); [reflexivity|].
    now destruct (parameter_toString_error cfg).
  - intros m Hgiven Hparse Hprint.
    assert (E : main cfg = main_catch (Some (TypeError m)) loaded)
      by (unfold main; now rewrite Hgiven, Hparse, Hprint).
    unfold run. rewrite (exited_steps cfg ins (main cfg) Normal);
      rewrite E; repeat split.
Qed.

(** ** The output and the variable [jenkinsBuildUrl] (lines 144-149) *)

Lemma output_matches_variable_step (cfg : config) (s : state) (i : input) :
  inv s ->
  output_matches_variable s ->
  output_matches_variable (step cfg s i).
Proof.
  intros (_ & _ & I) H. unfold output_matches_variable in *.
  destruct (pc s) as [|q [u|]|c] eqn:Hp.
  - (* the trigger is awaited *)
    destruct I as (P & J & _).
    destruct s as [fc sc jbu tm lg p]; simpl in *; subst.
    left. destruct i as [[a e|[loc|]]|res|err|]; simpl; try (split; auto).
    all: unfold_program; simpl; split_ifs; simpl; autorewrite with obs; simpl.
    all: rewrite ?P; simpl; auto.
  - (* a build is awaited *)
    destruct I as (Hu & J & P).
    destruct (step_publishes_nothing cfg s i) as (_ & E);
      [unfold assigned_or_exited; now rewrite Hp|].
    right. exists u. rewrite E. repeat split; try assumption.
    destruct s as [fc sc jbu tm lg p]; simpl in *; subst.
    destruct i as [t|res|err|]; simpl; try reflexivity.
    + unfold_program; simpl. rewrite Hu; simpl.
      destruct (getJobStatus_switch fc res) as [[fc' [|[| |d]|e]] [t|]]; simpl.
      all: split_ifs; reflexivity.
    + unfold_program; simpl. now destruct tm.
  - (* the queue is awaited *)
    destruct I as (P & J & _).
    destruct s as [fc sc jbu tm lg p]; simpl in *; subst.
    destruct i as [t|res|err|]; simpl.
    + left. split; auto.
    + unfold_program; simpl.
      destruct (getJobStatus_switch fc res) as [[fc' [|[| |d]|e]] [t|]]; simpl.
      all: try (left; autorewrite with obs; simpl; rewrite ?P; split;
                reflexivity).
      destruct (cancelled d);
        [left; autorewrite with obs; simpl; now rewrite P|].
      pose proof (truthy_executable_url d) as Ht.
      destruct (executable_url d) as [v|]; simpl.
      * specialize (Ht v eq_refl). rewrite Ht; simpl.
        right. exists v. autorewrite with obs; simpl. rewrite P. auto.
      * left. autorewrite with obs; simpl. now rewrite P.
    + left. unfold_program; simpl. autorewrite with obs; simpl. now rewrite ?P.
    + left. unfold_program; simpl.
      destruct tm; simpl; autorewrite with obs; simpl; now rewrite ?P.
  - (* main has settled *)
    destruct I as (Ht & _). now rewrite (exited_step cfg s c i Hp Ht).
Qed.

(** X14.  In every state of a run the output and the module variable
    [jenkinsBuildUrl] agree: either nothing was published and the variable
    is undefined, or exactly one value was published, it is the value of the
    variable, and it is not empty. *)
Theorem X14_output_is_the_variable (cfg : config) (ins : list input) :
  output_matches_variable (run cfg ins).
Proof.
  induction ins as [|i ins IH] using rev_ind.
  - left. change (run cfg []) with (main cfg). unfold main.
    split_ifs; split; reflexivity.
  - rewrite run_snoc.
    apply output_matches_variable_step; [apply inv_run | exact IH].
Qed.

(** ** The URL of a status request (lines 80-84) *)

Lemma string_append_assoc (a b c : string) : (a ++ b) ++ c = a ++ b ++ c.
Proof. induction a as [|x a IH]; simpl; [reflexivity | now rewrite IH]. Qed.

Lemma endsWith_split (s t : string) :
  Js.endsWith s t = true -> exists p, s = p ++ t.
Proof.
  induction s as [|c s IH]; cbn [Js.endsWith].
  - destruct (String.eqb_spec "" t) as [<-|]; [|discriminate].
    intros _. now exists "".
  - destruct (String.eqb_spec (String c s) t) as [<-|].
    + intros _. now exists "".
    + intros H. destruct (IH H) as [p ->]. now exists (String c p).
Qed.

(** X15.  Whatever the status URL, the request goes to a URL that ends in
    "/api/json", and to the URL itself followed by "api/json" or by
    "/api/json": a separator is added only when it is missing, never
    doubled and never dropped. *)
Theorem X15_request_url_shape (u : string) :
  Js.endsWith (request_url u) "/api/json" = true /\
  (request_url u = u ++ "api/json" \/ request_url u = u ++ "/api/json") /\
  (Js.endsWith u "/" = true -> request_url u = u ++ "api/json").
Proof.
  split; [|split].
  - destruct (endsWith_split _ _ (normalize_ends u)) as [p E].
    unfold request_url. rewrite E, string_append_assoc.
    apply endsWith_append.
  - unfold request_url, normalize.
    destruct (Js.endsWith u "/"); simpl; [now left|].
    right. now rewrite string_append_assoc.
  - intros H. unfold request_url. now rewrite normalize_fixed.
Qed.

(** At a build URL that has its separator. *)
Lemma X15_request_url_shape_witness :
  request_url "https://ci/build/5/" = "https://ci/build/5/" ++ "api/json".
Proof.
  exact (proj2 (proj2 (X15_request_url_shape "https://ci/build/5/")) eq_refl).
Defined.

(** ** Sleeps and requests (lines 128, 156, 166, 193, 197) *)




(** ** An unknown status code while the queue is polled (lines 115-120, 134) *)

(** X17.  While the queue item is polled, an answer whose status code is
    neither 200 nor 502 ends the run at once: "Unknown API error code
    received: <code>" is reported as it is, without the prefix that failures
    get once the build is polled; the failure counter is not touched and
    nothing is published. *)
Theorem X17_unknown_code_in_queue (cfg : config) (ins : list input)
    (q : string) (res : response)
    (Hqueue : pc (run cfg ins) = AwaitStatus q None)
    (H200 : statusCode res <> 200)
    (H502 : statusCode res <> 502) :
  let s := run cfg ins in
  let s' := run cfg (ins ++ [Status res]) in
  let text := "Unknown API error code received: "
                ++ Js.show_number (statusCode res) in
  log s' = (log s ++ [ESetFailed text; EError text; EClearTimeout])%list /\
  pc s' = Exited Normal /\
  failureCount s' = 0 /\
  published (log s') = [] /\
  succeeded s' = false.
Proof.
  cbn zeta. rewrite run_snoc.
  pose proof (inv_run cfg ins) as (_ & _ & I). rewrite Hqueue in I.
  destruct I as (P & _ & F & _).
  assert (E : getJobStatus_switch (failureCount (run cfg ins)) res
              = (failureCount (run cfg ins),
                 Rejected (JenkinsAPIError
                             ("Unknown API error code received: "
                                ++ Js.show_number (statusCode res))),
                 None)).
  { unfold getJobStatus_switch.
    apply Z.eqb_neq in H200, H502. now rewrite H200, H502. }
  destruct (run cfg ins) as [fc sc jbu tm lg p]; simpl in *; subst p.
  unfold step, waitJenkinsJob_resume, getJobStatus_callback;
    cbn [pc failureCount]. rewrite E.
  unfold succeeded; unfold_program; simpl.
  autorewrite with obs; simpl. rewrite P; simpl.
  repeat split; [exact F|]. now destruct (failures lg).
Qed.

(** A 503 on the first poll of the queue. *)
Lemma X17_unknown_code_in_queue_witness :
  log (run sample
         (started ++ [Status {| statusCode := 503;
                                body := Unparsable "Unexpected token <" |}]))
  = (log (run sample started)
       ++ [ESetFailed "Unknown API error code received: 503";
           EError "Unknown API error code received: 503";
           EClearTimeout])%list.
Proof.
  exact (proj1 (X17_unknown_code_in_queue sample started "https://ci/queue/5/"
                  {| statusCode := 503; body := Unparsable "Unexpected token <" |}
                  eq_refl
                  ltac:(simpl; lia) ltac:(simpl; lia))).
Defined.
